(** * ebook-store: the Clarity marketplace contract, embedded and verified

    The contract [contracts/ebook-store.clar] keeps a registry of ebooks, a
    map of purchases keyed by (ebook id, buyer), one index list per author
    and per buyer, and moves STX from buyer to author on a purchase.

    Embedding.  A Clarity [uint] is an [N] below [2^128]; an addition that
    leaves the range is a runtime error of the host, which aborts the
    transaction.  Data maps are finite maps ([gmap]); [(list 100 uint)] is a
    [list N] whose bound is enforced by [as_max_len].  A function body is a
    computation in the monad [Tx]: it threads the contract state and may
    leave early, either through [asserts!]/[unwrap!] with an error code or
    through a runtime error.  [call_public] is the host's transaction
    boundary: the writes of a body are committed only if it returns [(ok _)];
    on [(err _)] and on a runtime error the previous state is restored. *)

From Stdlib Require Import NArith.
From stdpp Require Import gmap strings list fin_maps.

Open Scope N_scope.

(** ** Values *)

Abbreviation principal := string.

Definition UINT_MAX : N := 2 ^ 128 - 1.

Definition is_uint (n : N) : bool := n <=? UINT_MAX.

(** [(len s)] of a [string-utf8]; only emptiness of a title is ever
    observed by the contract. *)
Definition len (s : string) : N := N.of_nat (String.length s).

(** [(as-max-len? l n)] *)
Definition as_max_len {A} (l : list A) (n : N) : option (list A) :=
  if N.of_nat (length l) <=? n then Some l else None.

(** [(append l x)] *)
Definition append {A} (l : list A) (x : A) : list A := l ++ [x].

(** ** Constants *)

Definition ERR_NOT_AUTHORIZED : N := 100.
Definition ERR_EBOOK_NOT_FOUND : N := 101.
Definition ERR_EBOOK_EXISTS : N := 102.
Definition ERR_INSUFFICIENT_FUNDS : N := 103.
Definition ERR_ALREADY_PURCHASED : N := 104.
Definition ERR_INVALID_PRICE : N := 105.
Definition ERR_INVALID_TITLE : N := 106.
Definition ERR_SELF_PURCHASE : N := 107.
Definition ERR_TRANSFER_FAILED : N := 108.

(** ** Data maps and variables *)

Record ebook := mk_ebook {
  title : string;
  description : string;
  content_hash : list Byte.byte;
  price : N;
  author : principal;
  created_at : N;
  active : bool
}.

Record purchase := mk_purchase {
  purchased_at : N;
  price_paid : N
}.

(** The records handed to [print]. *)
Inductive event :=
| ebook_registered (ebook_id : N) (ev_title : string) (ev_author : principal)
    (ev_price : N) (ev_hash : list Byte.byte) (timestamp : N)
| ebook_purchased (ebook_id : N) (ev_buyer ev_author : principal)
    (ev_price : N) (timestamp : N)
| price_updated (ebook_id : N) (old_price new_price : N) (timestamp : N)
| ebook_deactivated (ebook_id : N) (ev_author : principal) (timestamp : N)
| ebook_reactivated (ebook_id : N) (ev_author : principal) (timestamp : N).

(** The contract's storage, the STX balances of the host ledger and the
    event log. *)
Record State := mk_State {
  ebook_counter : N;
  ebooks : gmap N ebook;
  purchases : gmap (N * string) purchase;
  author_ebooks : gmap string (list N);
  buyer_ebooks : gmap string (list N);
  stx : gmap string N;
  events : list event
}.

Definition set_ebook_counter (n : N) (s : State) : State :=
  mk_State n (ebooks s) (purchases s) (author_ebooks s) (buyer_ebooks s)
    (stx s) (events s).
Definition set_ebooks (m : gmap N ebook) (s : State) : State :=
  mk_State (ebook_counter s) m (purchases s) (author_ebooks s)
    (buyer_ebooks s) (stx s) (events s).
Definition set_purchases (m : gmap (N * string) purchase) (s : State) : State :=
  mk_State (ebook_counter s) (ebooks s) m (author_ebooks s) (buyer_ebooks s)
    (stx s) (events s).
Definition set_author_ebooks (m : gmap string (list N)) (s : State) : State :=
  mk_State (ebook_counter s) (ebooks s) (purchases s) m (buyer_ebooks s)
    (stx s) (events s).
Definition set_buyer_ebooks (m : gmap string (list N)) (s : State) : State :=
  mk_State (ebook_counter s) (ebooks s) (purchases s) (author_ebooks s) m
    (stx s) (events s).
Definition set_stx (m : gmap string N) (s : State) : State :=
  mk_State (ebook_counter s) (ebooks s) (purchases s) (author_ebooks s)
    (buyer_ebooks s) m (events s).
Definition set_events (l : list event) (s : State) : State :=
  mk_State (ebook_counter s) (ebooks s) (purchases s) (author_ebooks s)
    (buyer_ebooks s) (stx s) l.

(** [merge ebook { price: p }] and [merge ebook { active: b }] *)
Definition merge_price (e : ebook) (p : N) : ebook :=
  mk_ebook (title e) (description e) (content_hash e) p (author e)
    (created_at e) (active e).
Definition merge_active (e : ebook) (b : bool) : ebook :=
  mk_ebook (title e) (description e) (content_hash e) (price e) (author e)
    (created_at e) b.

(** ** Transactions *)

(** What the host supplies to a call: [tx-sender] and [stacks-block-time]. *)
Record context := mk_context {
  tx_sender : principal;
  stacks_block_time : N
}.

(** A Clarity response value. *)
Inductive response (A : Type) :=
| ok (v : A)
| err (code : N).
Arguments ok {A} v.
Arguments err {A} code.

(** How the evaluation of an expression ends: with a value, by leaving the
    function with [(err code)], or with a runtime error. *)
Inductive result (A : Type) :=
| Next (a : A)
| Exit (code : N)
| Runtime.
Arguments Next {A} a.
Arguments Exit {A} code.
Arguments Runtime {A}.

Definition Tx (A : Type) : Type := State -> result A * State.

Definition ret {A} (a : A) : Tx A := fun s => (Next a, s).

Definition bind {A B} (m : Tx A) (k : A -> Tx B) : Tx B :=
  fun s =>
    match m s with
    | (Next a, s') => k a s'
    | (Exit c, s') => (Exit c, s')
    | (Runtime, s') => (Runtime, s')
    end.

Notation "'let!' x ':=' m 'in' k" := (bind m (fun x => k))
  (at level 10, x name, m at level 100, k at level 200).
Notation "m ';;' k" := (bind m (fun _ => k))
  (at level 100, k at level 200, right associativity).

Definition gets {A} (f : State -> A) : Tx A := fun s => (Next (f s), s).
Definition modify (f : State -> State) : Tx unit := fun s => (Next tt, f s).

(** [(asserts! b (err code))] *)
Definition asserts (b : bool) (code : N) : Tx unit :=
  fun s => if b then (Next tt, s) else (Exit code, s).

(** [(unwrap! o (err code))] on an optional *)
Definition unwrap {A} (o : option A) (code : N) : Tx A :=
  fun s => match o with Some a => (Next a, s) | None => (Exit code, s) end.

(** [(unwrap! r (err code))] on a response *)
Definition unwrap_response {A} (r : response A) (code : N) : Tx A :=
  fun s => match r with ok a => (Next a, s) | err _ => (Exit code, s) end.

(** [(+ a b)] on [uint]: leaving the range is a runtime error. *)
Definition uint_add (a b : N) : Tx N :=
  fun s => if is_uint (a + b) then (Next (a + b), s) else (Runtime, s).

(** [(print e)] *)
Definition print (e : event) : Tx unit :=
  modify (fun s => set_events (events s ++ [e]) s).

(** The outcome of a transaction that calls a public function. *)
Inductive outcome (A : Type) :=
| committed (v : A)
| failed (code : N)
| aborted.
Arguments committed {A} v.
Arguments failed {A} code.
Arguments aborted {A}.

(** The transaction boundary of the host: the writes of the body survive
    only when it returns [(ok v)]. *)
Definition call_public {A} (body : Tx A) (s : State) : outcome A * State :=
  match body s with
  | (Next v, s') => (committed v, s')
  | (Exit c, _) => (failed c, s)
  | (Runtime, _) => (aborted, s)
  end.

(** ** The host's STX ledger *)

Definition stx_get_balance (who : principal) (s : State) : N :=
  default 0 (stx s !! who).

(** [(stx-transfer? amount sender recipient)], a primitive of the host:
    [(err u3)] for a zero amount, [(err u2)] when sender and recipient
    coincide, [(err u4)] when the sender is not the [tx-sender], [(err u1)]
    when the sender's balance is too small; otherwise the amount moves and
    the result is [(ok true)].  A failing transfer moves nothing. *)
Definition stx_transfer (amount : N) (sender recipient : principal)
    (ctx : context) : Tx (response bool) :=
  fun s =>
    if amount =? 0 then (Next (err 3), s)
    else if bool_decide (sender = recipient) then (Next (err 2), s)
    else if negb (bool_decide (sender = tx_sender ctx)) then (Next (err 4), s)
    else if stx_get_balance sender s <? amount then (Next (err 1), s)
    else
      let debited := <[sender := stx_get_balance sender s - amount]> (stx s) in
      let credited :=
        <[recipient := default 0 (debited !! recipient) + amount]> debited in
      (Next (ok true), set_stx credited s).

(** ** Private and read-only functions *)

Definition ebook_exists (ebook_id : N) (s : State) : bool :=
  bool_decide (is_Some (ebooks s !! ebook_id)).

Definition get_current_time (ctx : context) : N := stacks_block_time ctx.

Definition get_ebook (ebook_id : N) (s : State) : option ebook :=
  ebooks s !! ebook_id.

Definition get_purchase (buyer : principal) (ebook_id : N) (s : State)
    : option purchase :=
  purchases s !! (ebook_id, buyer).

Definition has_access (buyer : principal) (ebook_id : N) (s : State) : bool :=
  match purchases s !! (ebook_id, buyer) with
  | Some _ => true
  | None => false
  end.

Definition get_ebook_count (s : State) : N := ebook_counter s.

Definition get_author_ebooks (a : principal) (s : State) : list N :=
  default [] (author_ebooks s !! a).

Definition get_buyer_ebooks (b : principal) (s : State) : list N :=
  default [] (buyer_ebooks s !! b).

Definition is_author (ebook_id : N) (user : principal) (s : State) : bool :=
  match ebooks s !! ebook_id with
  | Some e => bool_decide (author e = user)
  | None => false
  end.

Definition get_ebook_price (ebook_id : N) (s : State) : response N :=
  match ebooks s !! ebook_id with
  | Some e => ok (price e)
  | None => err ERR_EBOOK_NOT_FOUND
  end.

(** ** Public functions *)

Definition register_ebook (title description : string)
    (content_hash : list Byte.byte) (price : N) (ctx : context) : Tx N :=
  let! counter := gets ebook_counter in
  let! new_ebook_id := uint_add counter 1 in
  let author := tx_sender ctx in
  let! current_author_ebooks :=
    gets (fun s => default [] (author_ebooks s !! tx_sender ctx)) in
  asserts (0 <? len title) ERR_INVALID_TITLE;;
  asserts (0 <? price) ERR_INVALID_PRICE;;
  modify (fun s => set_ebooks
    (<[new_ebook_id :=
         mk_ebook title description content_hash price author
           (get_current_time ctx) true]> (ebooks s)) s);;
  let! new_list :=
    unwrap (as_max_len (append current_author_ebooks new_ebook_id) 100)
      ERR_NOT_AUTHORIZED in
  modify (fun s => set_author_ebooks (<[author := new_list]> (author_ebooks s)) s);;
  modify (set_ebook_counter new_ebook_id);;
  print (ebook_registered new_ebook_id title author price content_hash
           (get_current_time ctx));;
  ret new_ebook_id.

Definition buy_ebook (ebook_id : N) (ctx : context) : Tx bool :=
  let buyer := tx_sender ctx in
  let! found := gets (fun s => ebooks s !! ebook_id) in
  let! ebook := unwrap found ERR_EBOOK_NOT_FOUND in
  let price := price ebook in
  let author := author ebook in
  let! current_buyer_ebooks :=
    gets (fun s => default [] (buyer_ebooks s !! buyer)) in
  asserts (active ebook) ERR_EBOOK_NOT_FOUND;;
  asserts (negb (bool_decide (buyer = author))) ERR_SELF_PURCHASE;;
  let! owned := gets (has_access buyer ebook_id) in
  asserts (negb owned) ERR_ALREADY_PURCHASED;;
  let! paid := stx_transfer price buyer author ctx in
  unwrap_response paid ERR_TRANSFER_FAILED;;
  modify (fun s => set_purchases
    (<[(ebook_id, buyer) := mk_purchase (get_current_time ctx) price]>
       (purchases s)) s);;
  let! new_list :=
    unwrap (as_max_len (append current_buyer_ebooks ebook_id) 100)
      ERR_NOT_AUTHORIZED in
  modify (fun s => set_buyer_ebooks (<[buyer := new_list]> (buyer_ebooks s)) s);;
  print (ebook_purchased ebook_id buyer author price (get_current_time ctx));;
  ret true.

Definition update_price (ebook_id new_price : N) (ctx : context) : Tx bool :=
  let! found := gets (fun s => ebooks s !! ebook_id) in
  let! ebook := unwrap found ERR_EBOOK_NOT_FOUND in
  asserts (bool_decide (author ebook = tx_sender ctx)) ERR_NOT_AUTHORIZED;;
  asserts (0 <? new_price) ERR_INVALID_PRICE;;
  modify (fun s => set_ebooks
    (<[ebook_id := merge_price ebook new_price]> (ebooks s)) s);;
  print (price_updated ebook_id (price ebook) new_price (get_current_time ctx));;
  ret true.

Definition deactivate_ebook (ebook_id : N) (ctx : context) : Tx bool :=
  let! found := gets (fun s => ebooks s !! ebook_id) in
  let! ebook := unwrap found ERR_EBOOK_NOT_FOUND in
  asserts (bool_decide (author ebook = tx_sender ctx)) ERR_NOT_AUTHORIZED;;
  modify (fun s => set_ebooks
    (<[ebook_id := merge_active ebook false]> (ebooks s)) s);;
  print (ebook_deactivated ebook_id (tx_sender ctx) (get_current_time ctx));;
  ret true.

Definition reactivate_ebook (ebook_id : N) (ctx : context) : Tx bool :=
  let! found := gets (fun s => ebooks s !! ebook_id) in
  let! ebook := unwrap found ERR_EBOOK_NOT_FOUND in
  asserts (bool_decide (author ebook = tx_sender ctx)) ERR_NOT_AUTHORIZED;;
  modify (fun s => set_ebooks
    (<[ebook_id := merge_active ebook true]> (ebooks s)) s);;
  print (ebook_reactivated ebook_id (tx_sender ctx) (get_current_time ctx));;
  ret true.

(** ** Calls and traces *)

(** A call of one of the five public functions.  The host checks the
    arguments against the declared types before the body runs; the bodies
    below never look at those bounds. *)
Inductive operation :=
| RegisterEbook (title description : string) (content_hash : list Byte.byte)
    (price : N)
| BuyEbook (ebook_id : N)
| UpdatePrice (ebook_id new_price : N)
| DeactivateEbook (ebook_id : N)
| ReactivateEbook (ebook_id : N).

Record call := mk_call {
  call_ctx : context;
  call_op : operation
}.

(** What a public function returns inside [(ok _)]. *)
Inductive value :=
| VUint (n : N)
| VBool (b : bool).

Definition fmap_tx {A B} (f : A -> B) (m : Tx A) : Tx B :=
  let! a := m in ret (f a).

Definition exec (c : call) : Tx value :=
  match call_op c with
  | RegisterEbook t d h p => fmap_tx VUint (register_ebook t d h p (call_ctx c))
  | BuyEbook i => fmap_tx VBool (buy_ebook i (call_ctx c))
  | UpdatePrice i p => fmap_tx VBool (update_price i p (call_ctx c))
  | DeactivateEbook i => fmap_tx VBool (deactivate_ebook i (call_ctx c))
  | ReactivateEbook i => fmap_tx VBool (reactivate_ebook i (call_ctx c))
  end.

Definition step (s : State) (c : call) : outcome value * State :=
  call_public (exec c) s.

(** The state after a sequence of calls, and the outcomes in call order. *)
Fixpoint run (s : State) (cs : list call) : list (outcome value) * State :=
  match cs with
  | [] => ([], s)
  | c :: cs' =>
      let (o, s') := step s c in
      let (os, s'') := run s' cs' in
      (o :: os, s'')
  end.

Definition run_state (s : State) (cs : list call) : State := snd (run s cs).

(** The contract right after deployment; the balances are those of the
    chain at that moment. *)
Definition initial_state (balances : gmap string N) : State :=
  mk_State 0 ∅ ∅ ∅ ∅ balances [].

(** The states the contract can be in: those some sequence of calls leads
    to from the initial state. *)
Definition reachable (s : State) : Prop :=
  exists balances cs, s = run_state (initial_state balances) cs.

(** The identifiers handed out along a trace: the values of the committed
    [register-ebook] calls, in call order. *)
Fixpoint registered_ids (cs : list call) (os : list (outcome value))
    : list value :=
  match cs, os with
  | c :: cs', o :: os' =>
      match call_op c, o with
      | RegisterEbook _ _ _ _, committed v => v :: registered_ids cs' os'
      | _, _ => registered_ids cs' os'
      end
  | _, _ => []
  end.

(** ** A concrete scenario *)

Module Scenario.

Definition alice : principal := "ST1PQHQKV0RJXZFY1DGX8MNSNYVE3VGZJSRTPGZGM".
Definition bob : principal := "ST2CY5V39NHDPWSXMW9QDT3HC3GD6Q6XX4CFRK9AG".
Definition carol : principal := "ST2JHG361ZXG51QTKY2NQCVBPPRRE2KZB1HR05NNC".

Definition at_time (who : principal) (t : N) (op : operation) : call :=
  mk_call (mk_context who t) op.

Definition funded : gmap string N :=
  <[alice := 100000000]> (<[bob := 100000000]> (<[carol := 500]> ∅)).

Definition genesis : State := initial_state funded.

Definition register_book : operation :=
  RegisterEbook "Test eBook" "A test ebook" [] 1000000.

Definition listing : list call := [at_time alice 10 register_book].
Definition selling : list call := listing ++ [at_time bob 11 (BuyEbook 1)].
Definition delisting : list call :=
  selling ++ [at_time alice 12 (DeactivateEbook 1)].

Definition listed : State := run_state genesis listing.
Definition sold : State := run_state genesis selling.
Definition delisted : State := run_state genesis delisting.

(** Alice fills her index: one hundred registrations. *)
Definition filling : list call := replicate 100 (at_time alice 10 register_book).
Definition full : State := run_state genesis filling.

End Scenario.

(** ** Invariants of the storage *)

Definition is_purchase_of (id : N) (b : principal) (e : event) : bool :=
  match e with
  | ebook_purchased i b' _ _ _ => bool_decide (i = id) && bool_decide (b' = b)
  | _ => false
  end.

(** How many [ebook-purchased] events the log holds for a pair. *)
Definition purchases_logged (id : N) (b : principal) (log : list event) : nat :=
  length (filter (fun e => is_purchase_of id b e = true) log).

(** The purchase records stored under a pair, read off the whole map. *)
Definition purchase_records (id : N) (b : principal) (s : State)
    : list ((N * string) * purchase) :=
  filter (fun kv => kv.1 = (id, b)) (map_to_list (purchases s)).

Record wf (s : State) : Prop := mk_wf {
  wf_ids : forall id e, ebooks s !! id = Some e -> id <= ebook_counter s;
  wf_buyer : forall id b r, purchases s !! (id, b) = Some r ->
    exists e, ebooks s !! id = Some e /\ author e <> b;
  wf_log : forall id b,
    purchases_logged id b (events s) = if has_access b id s then 1%nat else 0%nat
}.

Ltac tx_unfold :=
  unfold step, call_public, exec, fmap_tx, register_ebook, buy_ebook,
    update_price, deactivate_ebook, reactivate_ebook, stx_transfer, print,
    uint_add, unwrap_response, unwrap, asserts, modify, gets, bind, ret in *.

Ltac tx_cases :=
  repeat (simpl in *; simplify_eq; try case_match).

(** ** A buyer with a full index *)

Module Crowd.

Definition erin : principal := "ST2NEB84ASENDXKYGJPQW86YXQCEFEX2ZQPG87ND".

(** Erin registers one hundred books for one micro-STX each, Carol one
    more; Bob buys the first hundred. *)
Definition stocking : list call :=
  replicate 100 (Scenario.at_time erin 20 (RegisterEbook "Cheap" "" [] 1))
  ++ [Scenario.at_time Scenario.carol 21 (RegisterEbook "One more" "" [] 1)].

Definition shopping : list call :=
  (fun i => Scenario.at_time Scenario.bob 30 (BuyEbook (N.of_nat i))) <$> seq 1 100.

Definition crowded : State := run_state Scenario.genesis (stocking ++ shopping).

End Crowd.

(** ** The registry seen as a whole *)

(** The identifiers [1 .. ebook-counter]. *)
Definition book_ids (s : State) : list N :=
  N.of_nat <$> seq 1 (N.to_nat (ebook_counter s)).

(** The books of an author, by increasing identifier. *)
Definition books_by (a : principal) (s : State) : list N :=
  filter (fun id => is_author id a s = true) (book_ids s).

(** All the STX of the ledger. *)
Definition stx_supply (s : State) : N :=
  map_fold (fun (_ : string) (v acc : N) => v + acc) 0 (stx s).

(** How many calls of a trace were committed. *)
Definition is_committed {A} (o : outcome A) : bool :=
  match o with committed _ => true | _ => false end.

Definition committed_calls (os : list (outcome value)) : nat :=
  length (filter (fun o => is_committed o = true) os).

(** What [update-price], [deactivate-ebook] and [reactivate-ebook] store in
    place of the book they found. *)
Definition rewritten (op : operation) (e : ebook) : ebook :=
  match op with
  | UpdatePrice _ p => merge_price e p
  | DeactivateEbook _ => merge_active e false
  | ReactivateEbook _ => merge_active e true
  | _ => e
  end.

(** The state a committed [register-ebook] leaves. *)
Definition registered_state (s : State) (ctx : context) (t d : string)
    (h : list Byte.byte) (p : N) : State :=
  set_events
    (events s ++ [ebook_registered (ebook_counter s + 1) t (tx_sender ctx) p h
                    (get_current_time ctx)])
    (set_ebook_counter (ebook_counter s + 1)
       (set_author_ebooks
          (<[tx_sender ctx :=
               append (get_author_ebooks (tx_sender ctx) s) (ebook_counter s + 1)]>
             (author_ebooks s))
          (set_ebooks
             (<[ebook_counter s + 1 :=
                  mk_ebook t d h p (tx_sender ctx) (get_current_time ctx) true]>
                (ebooks s)) s))).

Record registry_inv (s : State) : Prop := mk_registry_inv {
  inv_counter : is_uint (ebook_counter s) = true;
  inv_dense : forall id,
    is_Some (ebooks s !! id) <-> 1 <= id <= ebook_counter s;
  inv_book : forall id e,
    ebooks s !! id = Some e -> 0 < price e /\ 0 < len (title e);
  inv_author_index : forall a, get_author_ebooks a s = books_by a s;
  inv_author_bound : forall a, (length (get_author_ebooks a s) <= 100)%nat;
  inv_buyer_index : forall b id,
    id ∈ get_buyer_ebooks b s <-> has_access b id s = true;
  inv_buyer_nodup : forall b, NoDup (get_buyer_ebooks b s);
  inv_buyer_bound : forall b, (length (get_buyer_ebooks b s) <= 100)%nat;
  inv_paid : forall k r, purchases s !! k = Some r -> 0 < price_paid r
}.

(** ** The mock content hash of the test suite *)

(** A store into a [Uint8Array] keeps the value modulo 256. *)
Definition to_uint8 (z : Z) : Z := (z mod 256)%Z.

(** [createContentHash(seed)] for an integer seed: thirty-two bytes,
    [hash[i] = (seed + i) % 256], where [%] is the remainder of JavaScript
    (it has the sign of the dividend) and the store wraps it into a byte. *)
Definition createContentHash (seed : Z) : list Z :=
  (fun i => to_uint8 (Z.rem (seed + Z.of_nat i) 256)) <$> seq 0 32.

(** * Lemmas *)

(** The scenario of the specification: register, buy, buy again, buy as
    author, buy without funds, deactivate, buy. *)
Example scenario_outcomes :
  fst (run Scenario.genesis
         [Scenario.at_time Scenario.alice 10 Scenario.register_book;
          Scenario.at_time Scenario.bob 11 (BuyEbook 1);
          Scenario.at_time Scenario.bob 12 (BuyEbook 1);
          Scenario.at_time Scenario.alice 13 (BuyEbook 1);
          Scenario.at_time Scenario.carol 14 (BuyEbook 1);
          Scenario.at_time Scenario.alice 15 (DeactivateEbook 1);
          Scenario.at_time Scenario.bob 16 (BuyEbook 1)])
  = [committed (VUint 1); committed (VBool true);
     failed ERR_ALREADY_PURCHASED; failed ERR_SELF_PURCHASE;
     failed ERR_TRANSFER_FAILED; committed (VBool true);
     failed ERR_EBOOK_NOT_FOUND].
Proof. vm_compute. reflexivity. Qed.

Example scenario_balances :
  stx_get_balance Scenario.bob Scenario.sold = 99000000 /\
  stx_get_balance Scenario.alice Scenario.sold = 101000000 /\
  get_buyer_ebooks Scenario.bob Scenario.sold = [1] /\
  get_purchase Scenario.bob 1 Scenario.sold = Some (mk_purchase 11 1000000).
Proof. vm_compute. repeat split; reflexivity. Qed.

Lemma wf_initial balances : wf (initial_state balances).
Proof.
  split; simpl.
  - intros id e H. by rewrite lookup_empty in H.
  - intros id b r H. by rewrite lookup_empty in H.
  - intros id b. unfold has_access. simpl. by rewrite lookup_empty.
Qed.

(** ** Traces *)

Lemma run_cons s c cs :
  run s (c :: cs) =
  (fst (step s c) :: fst (run (snd (step s c)) cs),
   snd (run (snd (step s c)) cs)).
Proof.
  simpl. destruct (step s c) as [o s']. simpl.
  by destruct (run s' cs).
Qed.

Lemma run_state_nil s : run_state s [] = s.
Proof. reflexivity. Qed.

Lemma run_state_cons s c cs :
  run_state s (c :: cs) = run_state (snd (step s c)) cs.
Proof. unfold run_state. by rewrite run_cons. Qed.

Lemma run_state_app s cs1 cs2 :
  run_state s (cs1 ++ cs2) = run_state (run_state s cs1) cs2.
Proof.
  revert s. induction cs1 as [|c cs1 IH]; intros s; [done|].
  simpl app. by rewrite !run_state_cons, IH.
Qed.

Lemma reachable_initial balances : reachable (initial_state balances).
Proof. by exists balances, []. Qed.

Lemma reachable_step s c : reachable s -> reachable (snd (step s c)).
Proof.
  intros (balances & cs & ->). exists balances, (cs ++ [c]).
  by rewrite run_state_app, run_state_cons, run_state_nil.
Qed.

Lemma reachable_run s cs : reachable s -> reachable (run_state s cs).
Proof.
  revert s. induction cs as [|c cs IH]; intros s Hs; [done|].
  rewrite run_state_cons. by apply IH, reachable_step.
Qed.

(** Induction over the calls that led to a state. *)
Lemma reachable_invariant (P : State -> Prop) :
  (forall balances, P (initial_state balances)) ->
  (forall s c, P s -> P (snd (step s c))) ->
  forall s, reachable s -> P s.
Proof.
  intros Hinit Hstep s (balances & cs & ->).
  induction cs as [|c cs IH] using rev_ind; [apply Hinit|].
  rewrite run_state_app, run_state_cons, run_state_nil. by apply Hstep.
Qed.

(** Only a committed call changes the state. *)
Lemma step_failed s c code : fst (step s c) = failed code -> snd (step s c) = s.
Proof.
  unfold step, call_public. destruct (exec c s) as [[v|k|] s']; simpl; congruence.
Qed.

Lemma step_aborted s c : fst (step s c) = aborted -> snd (step s c) = s.
Proof.
  unfold step, call_public. destruct (exec c s) as [[v|k|] s']; simpl; congruence.
Qed.

(** ** The transfer primitive *)

Lemma stx_transfer_err amount sender recipient ctx s code s1 :
  stx_transfer amount sender recipient ctx s = (Next (err code), s1) -> s1 = s.
Proof. unfold stx_transfer. intros H. by repeat case_match; simplify_eq. Qed.

Lemma stx_transfer_total amount sender recipient ctx s :
  (exists s1, stx_transfer amount sender recipient ctx s = (Next (ok true), s1)) \/
  (exists code, stx_transfer amount sender recipient ctx s = (Next (err code), s)).
Proof. unfold stx_transfer. repeat case_match; eauto. Qed.

Lemma stx_transfer_frame amount sender recipient ctx s r s1 :
  stx_transfer amount sender recipient ctx s = (Next r, s1) ->
  s1 = set_stx (stx s1) s.
Proof.
  unfold stx_transfer. intros H.
  repeat case_match; simplify_eq;
    match goal with x : State |- _ => by destruct x end.
Qed.

(** ** The guards of [buy-ebook], in the order the body evaluates them *)

Lemma buy_ebook_missing ebook_id ctx s :
  ebooks s !! ebook_id = None ->
  buy_ebook ebook_id ctx s = (Exit ERR_EBOOK_NOT_FOUND, s).
Proof. intros H. tx_unfold. by rewrite H. Qed.

Lemma buy_ebook_inactive ebook_id ctx s e :
  ebooks s !! ebook_id = Some e -> active e = false ->
  buy_ebook ebook_id ctx s = (Exit ERR_EBOOK_NOT_FOUND, s).
Proof. intros H Ha. tx_unfold. by rewrite H, Ha. Qed.

Lemma buy_ebook_self ebook_id ctx s e :
  ebooks s !! ebook_id = Some e -> active e = true ->
  tx_sender ctx = author e ->
  buy_ebook ebook_id ctx s = (Exit ERR_SELF_PURCHASE, s).
Proof.
  intros H Ha Hs. tx_unfold. rewrite H, Ha. simpl.
  by rewrite bool_decide_eq_true_2.
Qed.

Lemma buy_ebook_owned ebook_id ctx s e :
  ebooks s !! ebook_id = Some e -> active e = true ->
  tx_sender ctx <> author e ->
  has_access (tx_sender ctx) ebook_id s = true ->
  buy_ebook ebook_id ctx s = (Exit ERR_ALREADY_PURCHASED, s).
Proof.
  intros H Ha Hs Ho. tx_unfold. rewrite H, Ha. simpl.
  rewrite bool_decide_eq_false_2 by done. simpl. by rewrite Ho.
Qed.

Lemma buy_ebook_unpaid ebook_id ctx s e code s1 :
  ebooks s !! ebook_id = Some e -> active e = true ->
  tx_sender ctx <> author e ->
  has_access (tx_sender ctx) ebook_id s = false ->
  stx_transfer (price e) (tx_sender ctx) (author e) ctx s = (Next (err code), s1) ->
  buy_ebook ebook_id ctx s = (Exit ERR_TRANSFER_FAILED, s).
Proof.
  intros H Ha Hs Ho Ht.
  assert (s1 = s) by (by eapply stx_transfer_err). subst s1.
  unfold buy_ebook, bind, gets, unwrap, asserts. rewrite H, Ha. simpl.
  rewrite bool_decide_eq_false_2 by done. simpl. rewrite Ho. simpl.
  by rewrite Ht.
Qed.

(** ** What a committed [buy-ebook] did *)

Lemma buy_ebook_committed s ctx ebook_id v :
  fst (step s (mk_call ctx (BuyEbook ebook_id))) = committed v ->
  exists e s1,
    ebooks s !! ebook_id = Some e /\ active e = true /\
    tx_sender ctx <> author e /\
    has_access (tx_sender ctx) ebook_id s = false /\
    stx_transfer (price e) (tx_sender ctx) (author e) ctx s = (Next (ok true), s1) /\
    v = VBool true /\
    snd (step s (mk_call ctx (BuyEbook ebook_id))) =
      set_events
        (events s ++ [ebook_purchased ebook_id (tx_sender ctx) (author e)
                        (price e) (get_current_time ctx)])
        (set_buyer_ebooks
           (<[tx_sender ctx := append (get_buyer_ebooks (tx_sender ctx) s) ebook_id]>
              (buyer_ebooks s))
           (set_purchases
              (<[(ebook_id, tx_sender ctx) :=
                   mk_purchase (get_current_time ctx) (price e)]> (purchases s))
              s1)).
Proof.
  unfold step, call_public, exec, fmap_tx, bind. cbn [call_op call_ctx].
  destruct (ebooks s !! ebook_id) as [e|] eqn:He;
    [|by rewrite (buy_ebook_missing _ _ _ He)].
  destruct (active e) eqn:Ha;
    [|by rewrite (buy_ebook_inactive _ _ _ _ He Ha)].
  destruct (decide (tx_sender ctx = author e)) as [Hs|Hs];
    [by rewrite (buy_ebook_self _ _ _ _ He Ha Hs)|].
  destruct (has_access (tx_sender ctx) ebook_id s) eqn:Ho;
    [by rewrite (buy_ebook_owned _ _ _ _ He Ha Hs Ho)|].
  destruct (stx_transfer_total (price e) (tx_sender ctx) (author e) ctx s)
    as [[s1 Ht]|[code Ht]];
    [|by rewrite (buy_ebook_unpaid _ _ _ _ _ _ He Ha Hs Ho Ht)].
  intros Hc. exists e, s1. repeat (split; [done|]).
  pose proof (stx_transfer_frame _ _ _ _ _ _ _ Ht) as Hf.
  revert Hc. unfold buy_ebook, bind, gets, unwrap, asserts. rewrite He, Ha. simpl.
  rewrite bool_decide_eq_false_2 by done. simpl. rewrite Ho. simpl.
  rewrite Ht. simpl. unfold modify, print, modify, ret, get_buyer_ebooks. simpl.
  assert (buyer_ebooks s1 = buyer_ebooks s) as Hb by (by rewrite Hf).
  assert (events s1 = events s) as Hev by (by rewrite Hf).
  assert (purchases s1 = purchases s) as Hp by (by rewrite Hf).
  destruct (as_max_len _ _) as [l|] eqn:Hl; simpl; [|done].
  intros Hv. split; [congruence|].
  unfold as_max_len in Hl. case_match; [|done]. simplify_eq.
  by rewrite Hb, Hev, Hp.
Qed.

(** ** Frame properties of a call *)

(** Only [buy-ebook] writes purchases, and only under a pair that held no
    record. *)
Lemma step_purchases s c :
  purchases (snd (step s c)) = purchases s \/
  exists ebook_id r,
    call_op c = BuyEbook ebook_id /\
    purchases s !! (ebook_id, tx_sender (call_ctx c)) = None /\
    purchases (snd (step s c)) =
      <[(ebook_id, tx_sender (call_ctx c)) := r]> (purchases s).
Proof.
  destruct c as [ctx op]. destruct op as [t d h p|i|i p|i|i];
    try (left; tx_unfold; by tx_cases).
  destruct (fst (step s (mk_call ctx (BuyEbook i)))) as [v|code|] eqn:Ho;
    [|left; by rewrite (step_failed _ _ _ Ho)|left; by rewrite (step_aborted _ _ Ho)].
  destruct (buy_ebook_committed _ _ _ _ Ho)
    as (e & s1 & He & Ha & Hs & Hacc & Ht & -> & ->).
  right. eexists i, _. split; [done|]. simpl. split.
  - unfold has_access in Hacc. by destruct (purchases s !! (i, tx_sender ctx)).
  - by rewrite (stx_transfer_frame _ _ _ _ _ _ _ Ht).
Qed.

Lemma step_purchase_kept s c k r :
  purchases s !! k = Some r -> purchases (snd (step s c)) !! k = Some r.
Proof.
  intros Hk. destruct (step_purchases s c) as [->|(i & r' & _ & Hnone & ->)];
    [done|].
  rewrite lookup_insert_ne; [done|]. intros <-. congruence.
Qed.

Lemma run_purchase_kept s cs k r :
  purchases s !! k = Some r -> purchases (run_state s cs) !! k = Some r.
Proof.
  revert s. induction cs as [|c cs IH]; intros s Hk; [done|].
  rewrite run_state_cons. by apply IH, step_purchase_kept.
Qed.

(** The counter moves only when [register-ebook] commits, by one, and the
    new value is the identifier returned. *)
Lemma step_counter s c :
  match call_op c, fst (step s c) with
  | RegisterEbook _ _ _ _, committed v =>
      v = VUint (ebook_counter s + 1) /\
      ebook_counter (snd (step s c)) = ebook_counter s + 1
  | _, _ => ebook_counter (snd (step s c)) = ebook_counter s
  end.
Proof.
  destruct c as [ctx op]. destruct op; tx_unfold; by tx_cases.
Qed.

Lemma purchases_logged_app id b l e :
  purchases_logged id b (l ++ [e]) =
  (purchases_logged id b l + if is_purchase_of id b e then 1 else 0)%nat.
Proof.
  unfold purchases_logged. rewrite filter_app, length_app.
  f_equal. rewrite filter_cons. by destruct (is_purchase_of id b e).
Qed.

(** [update-price], [deactivate-ebook] and [reactivate-ebook] rewrite one
    existing book and keep its author. *)
Lemma wf_rewrite s ctx op :
  (forall t d h p, op <> RegisterEbook t d h p) ->
  (forall i, op <> BuyEbook i) ->
  wf s -> wf (snd (step s (mk_call ctx op))).
Proof.
  intros Hr Hb [Hids Hbuy Hlog].
  destruct op as [t d h p|i|i p|i|i]; [by destruct (Hr t d h p)|by destruct (Hb i)|..].
  all: tx_unfold; tx_cases; try (by split); split; simpl.
  all: try (intros id e; rewrite lookup_insert; destruct (decide (i = id));
            intros He; simplify_eq; by eauto).
  all: try (intros id b r Hp; destruct (Hbuy _ _ _ Hp) as (e & He & Hne);
            rewrite lookup_insert; destruct (decide (i = id));
            simplify_eq; by eauto).
  all: intros id b; rewrite purchases_logged_app; simpl; rewrite Hlog;
       unfold has_access; simpl; lia.
Qed.

Lemma wf_step s c : wf s -> wf (snd (step s c)).
Proof.
  intros [Hids Hbuy Hlog]. destruct c as [ctx op].
  destruct op as [t d h p|i|i p|i|i].
  - tx_unfold. tx_cases; try (by split). split; simpl.
    + intros id e. rewrite lookup_insert. case_decide; intros He; simplify_eq; [lia|].
      apply Hids in He. lia.
    + intros id b r Hr. destruct (Hbuy _ _ _ Hr) as (e & He & Hne).
      exists e. split; [|done]. rewrite lookup_insert_ne; [done|].
      apply Hids in He. lia.
    + intros id b. rewrite purchases_logged_app. simpl. rewrite Hlog.
      unfold has_access; simpl. lia.
  - destruct (fst (step s (mk_call ctx (BuyEbook i)))) as [v|code|] eqn:Ho;
      [|rewrite (step_failed _ _ _ Ho); by split
       |rewrite (step_aborted _ _ Ho); by split].
    destruct (buy_ebook_committed _ _ _ _ Ho)
      as (e & s1 & He & Ha & Hs & Hacc & Ht & -> & ->).
    pose proof (stx_transfer_frame _ _ _ _ _ _ _ Ht) as Hf.
    assert (ebooks s1 = ebooks s) as Hbk by (by rewrite Hf).
    assert (ebook_counter s1 = ebook_counter s) as Hcn by (by rewrite Hf).
    assert (purchases s1 = purchases s) as Hp by (by rewrite Hf).
    split; simpl; rewrite ?Hbk, ?Hcn, ?Hp.
    + done.
    + intros id b r. rewrite lookup_insert. case_decide; [|by apply Hbuy].
      simplify_eq. intros _. by exists e.
    + intros id b. rewrite purchases_logged_app. simpl. rewrite Hlog.
      unfold has_access in *. simpl. rewrite lookup_insert.
      destruct (decide ((i, tx_sender ctx) = (id, b))) as [Heq|Hne].
      * simplify_eq. rewrite !bool_decide_eq_true_2 by done. simpl.
        by destruct (purchases s !! (id, tx_sender ctx)).
      * destruct (bool_decide (i = id)) eqn:H1, (bool_decide (tx_sender ctx = b)) eqn:H2;
          simpl; try lia.
        apply bool_decide_eq_true in H1, H2. congruence.
  - by apply wf_rewrite.
  - by apply wf_rewrite.
  - by apply wf_rewrite.
Qed.

Lemma wf_reachable s : reachable s -> wf s.
Proof.
  apply reachable_invariant; [apply wf_initial|apply wf_step].
Qed.

Lemma step_buy_exit s ctx ebook_id code s' :
  buy_ebook ebook_id ctx s = (Exit code, s') ->
  step s (mk_call ctx (BuyEbook ebook_id)) = (failed code, s).
Proof.
  intros H. unfold step, call_public, exec, fmap_tx, bind.
  cbn [call_op call_ctx]. by rewrite H.
Qed.

(** A finite map lists at most one entry per key. *)
Lemma no_entry_of_absent_key {V} (k : N * string) (l : list ((N * string) * V)) :
  k ∉ l.*1 -> filter (fun kv => kv.1 = k) l = [].
Proof.
  induction l as [|[k' v] l IH]; intros Hk; [done|].
  rewrite fmap_cons in Hk. apply not_elem_of_cons in Hk as [Hne Hk].
  rewrite filter_cons. simpl in *.
  destruct (decide (k' = k)); [congruence|]. by apply IH.
Qed.

Lemma at_most_one_entry {V} (k : N * string) (l : list ((N * string) * V)) :
  NoDup l.*1 -> (length (filter (fun kv => kv.1 = k) l) <= 1)%nat.
Proof.
  induction l as [|[k' v] l IH]; intros Hnd; simpl; [lia|].
  apply NoDup_cons in Hnd as [Hk' Hnd]. rewrite filter_cons. simpl.
  destruct (decide (k' = k)) as [->|]; [|by apply IH].
  rewrite (no_entry_of_absent_key k l Hk'). simpl. lia.
Qed.

(** * The properties of the specification *)

(** ** Purchases *)

(** C1, the claim as written fails: after alice deactivates the book that
    bob bought, a second [buy-ebook] by bob is answered with
    [ERR-EBOOK-NOT-FOUND] (u101), not with [ERR-ALREADY-PURCHASED] (u104). *)
Lemma second_buy_of_delisted_book_not_found :
  reachable Scenario.delisted /\
  has_access Scenario.bob 1 Scenario.delisted = true /\
  fst (step Scenario.delisted
         (Scenario.at_time Scenario.bob 13 (BuyEbook 1)))
    = failed ERR_EBOOK_NOT_FOUND /\
  fst (step Scenario.delisted
         (Scenario.at_time Scenario.bob 13 (BuyEbook 1)))
    <> failed ERR_ALREADY_PURCHASED.
Proof.
  split; [|split; [|split]].
  - exists Scenario.funded, Scenario.delisting. reflexivity.
  - vm_compute. reflexivity.
  - vm_compute. reflexivity.
  - vm_compute. discriminate.
Qed.

(** C1, amended: in every reachable state a pair (book id, buyer) has at
    most one purchase record and at most one logged purchase, a record once
    written is never changed by later calls, and a further [buy-ebook] by a
    buyer who already owns the book fails and leaves the whole state, the
    balances included, as it was: with [ERR-ALREADY-PURCHASED] (u104) while
    the book is active, with [ERR-EBOOK-NOT-FOUND] (u101) once it has been
    deactivated. *)
Theorem purchase_unique_and_second_buy_fails s ebook_id buyer :
  reachable s ->
  (length (purchase_records ebook_id buyer s) <= 1)%nat /\
  (purchases_logged ebook_id buyer (events s) <= 1)%nat /\
  (forall r cs, get_purchase buyer ebook_id s = Some r ->
     get_purchase buyer ebook_id (run_state s cs) = Some r) /\
  (has_access buyer ebook_id s = true ->
     exists e, get_ebook ebook_id s = Some e /\
       forall t,
         step s (mk_call (mk_context buyer t) (BuyEbook ebook_id)) =
           (failed (if active e then ERR_ALREADY_PURCHASED
                    else ERR_EBOOK_NOT_FOUND), s)).
Proof.
  intros Hs. pose proof (wf_reachable _ Hs) as [Hids Hbuy Hlog].
  split; [|split; [|split]].
  - apply at_most_one_entry, NoDup_fst_map_to_list.
  - rewrite Hlog. destruct (has_access buyer ebook_id s); lia.
  - intros r cs. apply run_purchase_kept.
  - unfold has_access, get_ebook.
    destruct (purchases s !! (ebook_id, buyer)) as [r|] eqn:Hr; [|done].
    intros _. destruct (Hbuy _ _ _ Hr) as (e & He & Hne).
    exists e. split; [done|]. intros t.
    destruct (active e) eqn:Ha.
    + eapply step_buy_exit, buy_ebook_owned; eauto.
      unfold has_access. simpl. by rewrite Hr.
    + eapply step_buy_exit, buy_ebook_inactive; eauto.
Qed.

Lemma purchase_unique_and_second_buy_fails_witness :
  reachable Scenario.sold /\
  has_access Scenario.bob 1 Scenario.sold = true /\
  (purchases_logged 1 Scenario.bob (events Scenario.sold) <= 1)%nat /\
  exists e, get_ebook 1 Scenario.sold = Some e /\
    step Scenario.sold (mk_call (mk_context Scenario.bob 12) (BuyEbook 1)) =
      (failed (if active e then ERR_ALREADY_PURCHASED
               else ERR_EBOOK_NOT_FOUND), Scenario.sold).
Proof.
  assert (reachable Scenario.sold) as Hs.
  { exists Scenario.funded, Scenario.selling. reflexivity. }
  assert (has_access Scenario.bob 1 Scenario.sold = true) as Ha
    by (vm_compute; reflexivity).
  destruct (purchase_unique_and_second_buy_fails
              Scenario.sold 1 Scenario.bob Hs) as (_ & Hl & _ & Hb).
  destruct (Hb Ha) as (e & He & Hbuy).
  split; [exact Hs|]. split; [exact Ha|]. split; [exact Hl|].
  exists e. split; [exact He|]. apply Hbuy.
Defined.

(** C2: [buy-ebook] moves the STX before it writes the purchase record.
    When the guards are passed and the transfer is refused, the body leaves
    with [ERR-TRANSFER-FAILED] (u108) having written nothing, and the call
    returns that error with every map, the counter, the balances and the log
    unchanged.  When the call commits, the transfer has succeeded and the
    record is written on top of the state the transfer produced. *)
Theorem buy_ebook_transfer_before_record s ctx ebook_id e :
  get_ebook ebook_id s = Some e -> active e = true ->
  tx_sender ctx <> author e ->
  has_access (tx_sender ctx) ebook_id s = false ->
  (forall code s1,
     stx_transfer (price e) (tx_sender ctx) (author e) ctx s
       = (Next (err code), s1) ->
     buy_ebook ebook_id ctx s = (Exit ERR_TRANSFER_FAILED, s) /\
     step s (mk_call ctx (BuyEbook ebook_id)) = (failed ERR_TRANSFER_FAILED, s)) /\
  (forall v,
     fst (step s (mk_call ctx (BuyEbook ebook_id))) = committed v ->
     exists s1,
       stx_transfer (price e) (tx_sender ctx) (author e) ctx s
         = (Next (ok true), s1) /\
       purchases s1 = purchases s /\
       stx (snd (step s (mk_call ctx (BuyEbook ebook_id)))) = stx s1 /\
       purchases (snd (step s (mk_call ctx (BuyEbook ebook_id)))) =
         <[(ebook_id, tx_sender ctx) :=
             mk_purchase (get_current_time ctx) (price e)]> (purchases s1)).
Proof.
  unfold get_ebook. intros He Ha Hs Ho. split.
  - intros code s1 Ht.
    pose proof (buy_ebook_unpaid _ _ _ _ _ _ He Ha Hs Ho Ht) as Hb.
    split; [done|]. by eapply step_buy_exit.
  - intros v Hv.
    destruct (buy_ebook_committed _ _ _ _ Hv)
      as (e' & s1 & He' & _ & _ & _ & Ht & _ & ->).
    rewrite He in He'. simplify_eq. exists s1. split; [done|].
    assert (purchases s1 = purchases s) as Hp
      by (by rewrite (stx_transfer_frame _ _ _ _ _ _ _ Ht)).
    split; [done|]. split; [done|]. simpl. by rewrite Hp.
Qed.

Lemma buy_ebook_transfer_before_record_witness :
  get_ebook 1 Scenario.listed
    = Some (mk_ebook "Test eBook" "A test ebook" [] 1000000 Scenario.alice 10 true) /\
  stx_transfer 1000000 Scenario.carol Scenario.alice
      (mk_context Scenario.carol 11) Scenario.listed
    = (Next (err 1), Scenario.listed) /\
  step Scenario.listed (mk_call (mk_context Scenario.carol 11) (BuyEbook 1))
    = (failed ERR_TRANSFER_FAILED, Scenario.listed).
Proof.
  assert (get_ebook 1 Scenario.listed
    = Some (mk_ebook "Test eBook" "A test ebook" [] 1000000 Scenario.alice 10 true))
    as He by (vm_compute; reflexivity).
  assert (stx_transfer 1000000 Scenario.carol Scenario.alice
      (mk_context Scenario.carol 11) Scenario.listed
    = (Next (err 1), Scenario.listed)) as Ht by (vm_compute; reflexivity).
  split; [exact He|]. split; [exact Ht|].
  refine (proj2 (proj1 (buy_ebook_transfer_before_record Scenario.listed
            (mk_context Scenario.carol 11) 1 _ He _ _ _) 1 Scenario.listed Ht)).
  - reflexivity.
  - vm_compute. discriminate.
  - vm_compute. reflexivity.
Defined.

(** C5, the claim as written fails: alice registers a book and deactivates
    it; her own [buy-ebook] is then answered with [ERR-EBOOK-NOT-FOUND]
    (u101), not with [ERR-SELF-PURCHASE] (u107). *)
Lemma author_buying_inactive_book_not_found :
  let s := run_state Scenario.listed
             [Scenario.at_time Scenario.alice 11 (DeactivateEbook 1)] in
  (exists e, get_ebook 1 s = Some e /\ author e = Scenario.alice) /\
  fst (step s (Scenario.at_time Scenario.alice 12 (BuyEbook 1)))
    = failed ERR_EBOOK_NOT_FOUND /\
  fst (step s (Scenario.at_time Scenario.alice 12 (BuyEbook 1)))
    <> failed ERR_SELF_PURCHASE.
Proof.
  split; [|split].
  - eexists. split; vm_compute; reflexivity.
  - vm_compute. reflexivity.
  - vm_compute. discriminate.
Qed.

(** C5, amended: for every registered book that is active, whatever its
    price, [buy-ebook] called by its author fails with [ERR-SELF-PURCHASE]
    (u107); when the book is inactive the author's call fails with
    [ERR-EBOOK-NOT-FOUND] (u101).  Either way the state is unchanged. *)
Theorem author_cannot_buy_own_ebook s ctx ebook_id e :
  get_ebook ebook_id s = Some e ->
  tx_sender ctx = author e ->
  step s (mk_call ctx (BuyEbook ebook_id)) =
    (failed (if active e then ERR_SELF_PURCHASE else ERR_EBOOK_NOT_FOUND), s).
Proof.
  unfold get_ebook. intros He Hs. destruct (active e) eqn:Ha.
  - eapply step_buy_exit. by eapply buy_ebook_self.
  - eapply step_buy_exit. by eapply buy_ebook_inactive.
Qed.

Lemma author_cannot_buy_own_ebook_witness :
  get_ebook 1 Scenario.listed
    = Some (mk_ebook "Test eBook" "A test ebook" [] 1000000 Scenario.alice 10 true) /\
  step Scenario.listed (mk_call (mk_context Scenario.alice 11) (BuyEbook 1))
    = (failed ERR_SELF_PURCHASE, Scenario.listed).
Proof.
  assert (get_ebook 1 Scenario.listed
    = Some (mk_ebook "Test eBook" "A test ebook" [] 1000000 Scenario.alice 10 true))
    as He by (vm_compute; reflexivity).
  split; [exact He|].
  apply (author_cannot_buy_own_ebook Scenario.listed
           (mk_context Scenario.alice 11) 1 _ He).
  reflexivity.
Defined.

(** C6: for every caller, [buy-ebook] fails with [ERR-EBOOK-NOT-FOUND]
    (u101) when no book has the identifier and also when the book exists
    with its [active] flag false; the state is unchanged in both cases. *)
Theorem buy_ebook_missing_or_inactive s ctx ebook_id :
  get_ebook ebook_id s = None \/
  (exists e, get_ebook ebook_id s = Some e /\ active e = false) ->
  step s (mk_call ctx (BuyEbook ebook_id)) = (failed ERR_EBOOK_NOT_FOUND, s).
Proof.
  unfold get_ebook. intros [Hn|(e & He & Ha)].
  - eapply step_buy_exit. by apply buy_ebook_missing.
  - eapply step_buy_exit. by eapply buy_ebook_inactive.
Qed.

Lemma buy_ebook_missing_or_inactive_witness :
  (get_ebook 1 Scenario.delisted = None \/
   exists e, get_ebook 1 Scenario.delisted = Some e /\ active e = false) /\
  step Scenario.delisted (mk_call (mk_context Scenario.carol 13) (BuyEbook 1))
    = (failed ERR_EBOOK_NOT_FOUND, Scenario.delisted).
Proof.
  assert (get_ebook 1 Scenario.delisted = None \/
   exists e, get_ebook 1 Scenario.delisted = Some e /\ active e = false) as H.
  { right. eexists. split; vm_compute; reflexivity. }
  split; [exact H|].
  apply (buy_ebook_missing_or_inactive Scenario.delisted
           (mk_context Scenario.carol 13) 1 H).
Defined.

(** ** Registration *)

Lemma registered_ids_from s cs :
  let ids := registered_ids cs (fst (run s cs)) in
  ids = (fun n => VUint (ebook_counter s + N.of_nat n)) <$> seq 1 (length ids) /\
  ebook_counter (run_state s cs) = ebook_counter s + N.of_nat (length ids).
Proof.
  revert s. induction cs as [|c cs IH]; intros s.
  - simpl. split; [done|]. rewrite run_state_nil. lia.
  - rewrite run_cons, run_state_cons. cbn [fst registered_ids].
    specialize (IH (snd (step s c))). cbv zeta in IH. destruct IH as [IHl IHc].
    pose proof (step_counter s c) as Hc.
    set (rest := registered_ids cs (fst (run (snd (step s c)) cs))) in *.
    destruct (call_op c), (fst (step s c)) as [v| |];
      try (cbv zeta; rewrite IHc, Hc; rewrite Hc in IHl; done).
    destruct Hc as [-> Hc]. cbv zeta. rewrite IHc, Hc. split.
    + cbn [length seq fmap list_fmap]. f_equal. rewrite <- seq_shift, <- list_fmap_compose.
      rewrite IHl at 1. rewrite Hc. apply list_fmap_ext. intros _ n _. simpl.
      f_equal. lia.
    + cbn [length]. lia.
Qed.

(** C3: along every sequence of calls from the initial state the Nth
    committed [register-ebook] returns the identifier N (so the identifiers
    start at 1 and increase by one), and [get-ebook-count] is the number of
    registrations committed so far. *)
Theorem register_ids_sequential balances cs :
  let ids := registered_ids cs (fst (run (initial_state balances) cs)) in
  ids = (fun n => VUint (N.of_nat n)) <$> seq 1 (length ids) /\
  get_ebook_count (run_state (initial_state balances) cs) = N.of_nat (length ids).
Proof.
  pose proof (registered_ids_from (initial_state balances) cs) as [Hl Hc].
  cbv zeta. unfold get_ebook_count. split; [|by rewrite Hc].
  rewrite Hl at 1. by apply list_fmap_ext.
Qed.

Example registered_ids_skip_failures :
  let cs := [Scenario.at_time Scenario.alice 10 Scenario.register_book;
             Scenario.at_time Scenario.bob 11 (RegisterEbook "" "no title" [] 5);
             Scenario.at_time Scenario.bob 12 (BuyEbook 1);
             Scenario.at_time Scenario.bob 13 (RegisterEbook "Second" "" [] 5)] in
  registered_ids cs (fst (run Scenario.genesis cs)) = [VUint 1; VUint 2] /\
  get_ebook_count (run_state Scenario.genesis cs) = 2.
Proof. vm_compute. split; reflexivity. Qed.

(** C8: a well-formed registration by an author whose index already holds
    one hundred identifiers.  The body stores the book, then fails on
    [as-max-len?] and leaves with [ERR-NOT-AUTHORIZED] (u100), the code of
    the author checks; the host undoes the write. *)
Lemma register_ebook_index_full s ctx t d h p :
  is_uint (ebook_counter s + 1) = true ->
  0 < len t -> 0 < p ->
  length (get_author_ebooks (tx_sender ctx) s) = 100%nat ->
  fst (register_ebook t d h p ctx s) = Exit ERR_NOT_AUTHORIZED /\
  is_Some (ebooks (snd (register_ebook t d h p ctx s)) !! (ebook_counter s + 1)) /\
  step s (mk_call ctx (RegisterEbook t d h p)) = (failed ERR_NOT_AUTHORIZED, s).
Proof.
  unfold get_author_ebooks. intros Hu Ht Hp Hl.
  apply N.ltb_lt in Ht, Hp.
  assert (as_max_len
            (append (default [] (author_ebooks s !! tx_sender ctx))
               (ebook_counter s + 1)) 100 = None) as Hfull.
  { unfold as_max_len, append. rewrite length_app, Hl. reflexivity. }
  tx_unfold. cbn [call_op call_ctx]. rewrite Hu. simpl. rewrite Ht, Hp. simpl.
  rewrite Hfull. simpl. split; [done|]. split; [|done].
  rewrite lookup_insert_eq. by eexists.
Qed.

(** C8, the code at the failing input: alice has registered one hundred
    books and registers one more, with a title and a positive price.  The
    call fails and stores nothing, but the error is [ERR-NOT-AUTHORIZED]
    (u100), the code [update-price] gives a caller who is not the author; it
    is no code of its own. *)
Theorem register_at_capacity_reports_not_authorized :
  length (get_author_ebooks Scenario.alice Scenario.full) = 100%nat /\
  get_ebook_count Scenario.full = 100 /\
  step Scenario.full (Scenario.at_time Scenario.alice 11 Scenario.register_book)
    = (failed ERR_NOT_AUTHORIZED, Scenario.full) /\
  fst (step Scenario.full (Scenario.at_time Scenario.bob 11 (UpdatePrice 1 5)))
    = failed ERR_NOT_AUTHORIZED.
Proof.
  assert (length (get_author_ebooks Scenario.alice Scenario.full) = 100%nat)
    as Hl by (vm_compute; reflexivity).
  split; [exact Hl|]. split; [vm_compute; reflexivity|]. split.
  - apply (register_ebook_index_full Scenario.full
             (mk_context Scenario.alice 11)); [vm_compute; reflexivity|done..].
  - vm_compute. reflexivity.
Qed.

(** ** Access *)

(** C4: once [buy-ebook] has committed for a buyer, [has-access] answers
    true for that buyer and book in the resulting state and after every
    further sequence of calls, a [deactivate-ebook] by the author among
    them. *)
Theorem access_after_purchase_is_permanent s ctx ebook_id v :
  fst (step s (mk_call ctx (BuyEbook ebook_id))) = committed v ->
  has_access (tx_sender ctx) ebook_id
    (snd (step s (mk_call ctx (BuyEbook ebook_id)))) = true /\
  (forall cs,
     has_access (tx_sender ctx) ebook_id
       (run_state (snd (step s (mk_call ctx (BuyEbook ebook_id)))) cs) = true) /\
  (forall ctx',
     has_access (tx_sender ctx) ebook_id
       (snd (step (snd (step s (mk_call ctx (BuyEbook ebook_id))))
               (mk_call ctx' (DeactivateEbook ebook_id)))) = true).
Proof.
  intros Hv.
  destruct (buy_ebook_committed _ _ _ _ Hv)
    as (e & s1 & _ & _ & _ & _ & _ & _ & Hs').
  assert (exists r, purchases (snd (step s (mk_call ctx (BuyEbook ebook_id))))
                      !! (ebook_id, tx_sender ctx) = Some r) as [r Hr].
  { rewrite Hs'. simpl. rewrite lookup_insert_eq. by eexists. }
  split; [|split].
  - unfold has_access. by rewrite Hr.
  - intros cs. unfold has_access. by rewrite (run_purchase_kept _ cs _ _ Hr).
  - intros ctx'. unfold has_access. by rewrite (step_purchase_kept _ _ _ _ Hr).
Qed.

Lemma access_after_purchase_is_permanent_witness :
  fst (step Scenario.listed (mk_call (mk_context Scenario.bob 11) (BuyEbook 1)))
    = committed (VBool true) /\
  has_access Scenario.bob 1
    (snd (step (snd (step Scenario.listed
                       (mk_call (mk_context Scenario.bob 11) (BuyEbook 1))))
            (mk_call (mk_context Scenario.alice 12) (DeactivateEbook 1)))) = true.
Proof.
  assert (fst (step Scenario.listed
                 (mk_call (mk_context Scenario.bob 11) (BuyEbook 1)))
          = committed (VBool true)) as H by (vm_compute; reflexivity).
  split; [exact H|].
  apply (access_after_purchase_is_permanent Scenario.listed
           (mk_context Scenario.bob 11) 1 (VBool true) H).
Defined.

(** C10: in every reachable state the author of a book holds no purchase
    record for it: [has-access] answers false for the author. *)
Theorem author_never_has_access s ebook_id e :
  reachable s ->
  get_ebook ebook_id s = Some e ->
  has_access (author e) ebook_id s = false.
Proof.
  unfold get_ebook, has_access. intros Hs He.
  destruct (wf_reachable _ Hs) as [_ Hbuy _].
  destruct (purchases s !! (ebook_id, author e)) as [r|] eqn:Hr; [|done].
  destruct (Hbuy _ _ _ Hr) as (e' & He' & Hne). congruence.
Qed.

Lemma author_never_has_access_witness :
  reachable Scenario.sold /\
  get_ebook 1 Scenario.sold
    = Some (mk_ebook "Test eBook" "A test ebook" [] 1000000 Scenario.alice 10 true) /\
  has_access Scenario.alice 1 Scenario.sold = false.
Proof.
  assert (reachable Scenario.sold) as Hs
    by (exists Scenario.funded, Scenario.selling; reflexivity).
  assert (get_ebook 1 Scenario.sold
    = Some (mk_ebook "Test eBook" "A test ebook" [] 1000000 Scenario.alice 10 true))
    as He by (vm_compute; reflexivity).
  split; [exact Hs|]. split; [exact He|].
  apply (author_never_has_access Scenario.sold 1 _ Hs He).
Defined.

(** ** Author-only operations *)

(** C7: for an existing book and a caller who is not its author,
    [update-price] (with any new price), [deactivate-ebook] and
    [reactivate-ebook] each fail with [ERR-NOT-AUTHORIZED] (u100) and leave
    the state, hence every field of the book record, unchanged. *)
Theorem non_author_cannot_modify s ctx ebook_id e :
  get_ebook ebook_id s = Some e ->
  tx_sender ctx <> author e ->
  (forall new_price,
     step s (mk_call ctx (UpdatePrice ebook_id new_price))
       = (failed ERR_NOT_AUTHORIZED, s)) /\
  step s (mk_call ctx (DeactivateEbook ebook_id)) = (failed ERR_NOT_AUTHORIZED, s) /\
  step s (mk_call ctx (ReactivateEbook ebook_id)) = (failed ERR_NOT_AUTHORIZED, s) /\
  (forall new_price,
     get_ebook ebook_id
       (snd (step s (mk_call ctx (UpdatePrice ebook_id new_price)))) = Some e) /\
  get_ebook ebook_id (snd (step s (mk_call ctx (DeactivateEbook ebook_id)))) = Some e /\
  get_ebook ebook_id (snd (step s (mk_call ctx (ReactivateEbook ebook_id)))) = Some e.
Proof.
  unfold get_ebook. intros He Hs.
  assert (bool_decide (author e = tx_sender ctx) = false) as Hd
    by (by apply bool_decide_eq_false_2).
  assert (forall new_price,
     step s (mk_call ctx (UpdatePrice ebook_id new_price))
       = (failed ERR_NOT_AUTHORIZED, s)) as Hu.
  { intros new_price. tx_unfold. cbn [call_op call_ctx]. by rewrite He, Hd. }
  assert (step s (mk_call ctx (DeactivateEbook ebook_id))
            = (failed ERR_NOT_AUTHORIZED, s)) as Hde.
  { tx_unfold. cbn [call_op call_ctx]. by rewrite He, Hd. }
  assert (step s (mk_call ctx (ReactivateEbook ebook_id))
            = (failed ERR_NOT_AUTHORIZED, s)) as Hre.
  { tx_unfold. cbn [call_op call_ctx]. by rewrite He, Hd. }
  repeat split; try done.
  - intros new_price. by rewrite Hu.
  - by rewrite Hde.
  - by rewrite Hre.
Qed.

Lemma non_author_cannot_modify_witness :
  get_ebook 1 Scenario.listed
    = Some (mk_ebook "Test eBook" "A test ebook" [] 1000000 Scenario.alice 10 true) /\
  step Scenario.listed (mk_call (mk_context Scenario.bob 11) (UpdatePrice 1 0))
    = (failed ERR_NOT_AUTHORIZED, Scenario.listed) /\
  step Scenario.listed (mk_call (mk_context Scenario.bob 11) (DeactivateEbook 1))
    = (failed ERR_NOT_AUTHORIZED, Scenario.listed).
Proof.
  assert (get_ebook 1 Scenario.listed
    = Some (mk_ebook "Test eBook" "A test ebook" [] 1000000 Scenario.alice 10 true))
    as He by (vm_compute; reflexivity).
  assert (tx_sender (mk_context Scenario.bob 11) <> Scenario.alice) as Hs
    by (vm_compute; discriminate).
  destruct (non_author_cannot_modify Scenario.listed
              (mk_context Scenario.bob 11) 1 _ He Hs) as (Hu & Hd & _).
  split; [exact He|]. split; [apply Hu|exact Hd].
Defined.

(** C9: [update-price] called by the author with a positive price on an
    existing book commits and replaces the price of that book only: title,
    description, content hash, author, creation time and active flag keep
    their values, every other book is as before, and so are the purchases,
    both indices, the counter and the balances. *)
Theorem update_price_changes_price_only s ctx ebook_id new_price e :
  get_ebook ebook_id s = Some e ->
  tx_sender ctx = author e ->
  0 < new_price ->
  let s' := snd (step s (mk_call ctx (UpdatePrice ebook_id new_price))) in
  fst (step s (mk_call ctx (UpdatePrice ebook_id new_price)))
    = committed (VBool true) /\
  (exists e', get_ebook ebook_id s' = Some e' /\
     price e' = new_price /\
     title e' = title e /\ description e' = description e /\
     content_hash e' = content_hash e /\ author e' = author e /\
     created_at e' = created_at e /\ active e' = active e) /\
  (forall other, other <> ebook_id -> get_ebook other s' = get_ebook other s) /\
  purchases s' = purchases s /\
  author_ebooks s' = author_ebooks s /\ buyer_ebooks s' = buyer_ebooks s /\
  ebook_counter s' = ebook_counter s /\ stx s' = stx s.
Proof.
  unfold get_ebook. intros He Hs Hp. apply N.ltb_lt in Hp.
  assert (bool_decide (author e = tx_sender ctx) = true) as Hd
    by (by apply bool_decide_eq_true_2).
  tx_unfold. cbn [call_op call_ctx]. rewrite He, Hd, Hp. simpl.
  split; [done|]. split; [|split; [|done]].
  - exists (merge_price e new_price). by rewrite lookup_insert_eq.
  - intros other Hne. by rewrite lookup_insert_ne.
Qed.

Lemma update_price_changes_price_only_witness :
  get_ebook 1 Scenario.sold
    = Some (mk_ebook "Test eBook" "A test ebook" [] 1000000 Scenario.alice 10 true) /\
  0 < 2500000 /\
  fst (step Scenario.sold (mk_call (mk_context Scenario.alice 12) (UpdatePrice 1 2500000)))
    = committed (VBool true) /\
  purchases (snd (step Scenario.sold
                    (mk_call (mk_context Scenario.alice 12) (UpdatePrice 1 2500000))))
    = purchases Scenario.sold.
Proof.
  assert (get_ebook 1 Scenario.sold
    = Some (mk_ebook "Test eBook" "A test ebook" [] 1000000 Scenario.alice 10 true))
    as He by (vm_compute; reflexivity).
  assert (0 < 2500000) as Hp by lia.
  destruct (update_price_changes_price_only Scenario.sold
              (mk_context Scenario.alice 12) 1 2500000 _ He eq_refl Hp)
    as (Hc & _ & _ & Hpur & _).
  split; [exact He|]. split; [exact Hp|]. split; [exact Hc|exact Hpur].
Defined.

(** * Further properties of the contract *)

(** ** What a committed call did *)

Lemma as_max_len_Some {A} (l l' : list A) n :
  as_max_len l n = Some l' <-> l' = l /\ N.of_nat (length l) <= n.
Proof.
  unfold as_max_len. destruct (N.of_nat (length l) <=? n) eqn:H.
  - apply N.leb_le in H. split; [by intros [= <-]|by intros [-> _]].
  - apply N.leb_gt in H. split; [done|]. intros [_ ?]. lia.
Qed.

Lemma register_ebook_committed s ctx t d h p v :
  fst (step s (mk_call ctx (RegisterEbook t d h p))) = committed v ->
  is_uint (ebook_counter s + 1) = true /\ 0 < len t /\ 0 < p /\
  (length (get_author_ebooks (tx_sender ctx) s) < 100)%nat /\
  v = VUint (ebook_counter s + 1) /\
  snd (step s (mk_call ctx (RegisterEbook t d h p))) = registered_state s ctx t d h p.
Proof.
  unfold registered_state, get_author_ebooks.
  tx_unfold. cbn [call_op call_ctx].
  destruct (is_uint (ebook_counter s + 1)) eqn:Hu; [|done]. simpl.
  destruct (0 <? len t) eqn:Ht; [|done]. simpl.
  destruct (0 <? p) eqn:Hp; [|done]. simpl.
  destruct (as_max_len _ _) as [l|] eqn:Hl; [|done]. simpl.
  apply as_max_len_Some in Hl as [Heq Hl]. subst l.
  unfold append in Hl. rewrite length_app in Hl. simpl in Hl.
  apply N.ltb_lt in Ht, Hp. intros [= <-]. repeat split; try done. lia.
Qed.

Lemma rewrite_committed s ctx op v :
  (forall t d h p, op <> RegisterEbook t d h p) ->
  (forall i, op <> BuyEbook i) ->
  fst (step s (mk_call ctx op)) = committed v ->
  exists i e ev,
    (op = DeactivateEbook i \/ op = ReactivateEbook i \/
     exists p, op = UpdatePrice i p /\ 0 < p) /\
    ebooks s !! i = Some e /\ author e = tx_sender ctx /\ v = VBool true /\
    snd (step s (mk_call ctx op)) =
      set_events (events s ++ [ev])
        (set_ebooks (<[i := rewritten op e]> (ebooks s)) s).
Proof.
  intros Hr Hb.
  destruct op as [t d h p|i|i p|i|i]; [by destruct (Hr t d h p)|by destruct (Hb i)|..].
  all: tx_unfold; cbn [call_op call_ctx];
    destruct (ebooks s !! i) as [e|] eqn:He; [|done]; simpl;
    destruct (bool_decide (author e = tx_sender ctx)) eqn:Ha; [|done]; simpl;
    apply bool_decide_eq_true in Ha.
  - destruct (0 <? p) eqn:Hp; [|done]. simpl. apply N.ltb_lt in Hp.
    intros [= <-]. eexists i, e, _. repeat split; eauto.
  - intros [= <-]. eexists i, e, _. repeat split; eauto.
  - intros [= <-]. eexists i, e, _. repeat split; eauto.
Qed.

(** ** The registry invariant *)

Lemma elem_of_book_ids s id :
  id ∈ book_ids s <-> 1 <= id <= ebook_counter s.
Proof.
  unfold book_ids. rewrite list_elem_of_fmap. split.
  - intros (n & -> & Hn). apply elem_of_seq in Hn. lia.
  - intros H. exists (N.to_nat id). split; [lia|]. apply elem_of_seq. lia.
Qed.

Lemma book_ids_succ s s' :
  ebook_counter s' = ebook_counter s + 1 ->
  book_ids s' = book_ids s ++ [ebook_counter s + 1].
Proof.
  unfold book_ids. intros ->.
  replace (N.to_nat (ebook_counter s + 1)) with (N.to_nat (ebook_counter s) + 1)%nat by lia.
  rewrite seq_app, fmap_app. simpl. do 2 f_equal. lia.
Qed.

Lemma filter_agree {A} (P Q : A -> Prop)
    `{!forall x, Decision (P x), !forall x, Decision (Q x)} (l : list A) :
  (forall x, x ∈ l -> P x <-> Q x) -> filter P l = filter Q l.
Proof.
  induction l as [|a l IH]; intros Hx; [done|].
  rewrite !filter_cons.
  assert (P a <-> Q a) as Ha by (apply Hx; left).
  rewrite IH by (intros x Hin; apply Hx; by right).
  destruct (decide (P a)), (decide (Q a)); try done; tauto.
Qed.

Lemma books_by_ext a s s' :
  ebook_counter s' = ebook_counter s ->
  (forall id, 1 <= id <= ebook_counter s -> is_author id a s' = is_author id a s) ->
  books_by a s' = books_by a s.
Proof.
  intros Hc Hx. unfold books_by. replace (book_ids s') with (book_ids s)
    by (unfold book_ids; by rewrite Hc).
  apply filter_agree. intros id Hid.
  apply (elem_of_book_ids s) in Hid. by rewrite Hx.
Qed.

Lemma buy_ebook_committed_room s ctx ebook_id v :
  fst (step s (mk_call ctx (BuyEbook ebook_id))) = committed v ->
  (length (get_buyer_ebooks (tx_sender ctx) s) < 100)%nat.
Proof.
  intros Hv.
  destruct (buy_ebook_committed _ _ _ _ Hv)
    as (e & s1 & He & Ha & Hs & Hacc & Ht & _ & _).
  revert Hv. unfold step, call_public, exec, fmap_tx, bind, get_buyer_ebooks.
  cbn [call_op call_ctx].
  unfold buy_ebook, bind, gets, unwrap, asserts. rewrite He, Ha. simpl.
  rewrite bool_decide_eq_false_2 by done. simpl. rewrite Hacc. simpl.
  rewrite Ht. simpl. unfold modify. simpl.
  destruct (as_max_len _ _) as [l|] eqn:Hl; [|done]. intros _.
  apply as_max_len_Some in Hl as [_ Hl].
  unfold append in Hl. rewrite length_app in Hl. simpl in Hl. lia.
Qed.

Lemma registry_inv_initial balances : registry_inv (initial_state balances).
Proof.
  split.
  - done.
  - intros id. simpl. rewrite lookup_empty. split; [by intros [? ?]|lia].
  - intros id e. simpl. by rewrite lookup_empty.
  - done.
  - intros a. unfold get_author_ebooks. simpl. rewrite lookup_empty. simpl. lia.
  - intros b id. unfold get_buyer_ebooks, has_access. simpl.
    rewrite !lookup_empty. simpl. split; [by intros ?%elem_of_nil|done].
  - intros b. unfold get_buyer_ebooks. simpl. rewrite lookup_empty. constructor.
  - intros b. unfold get_buyer_ebooks. simpl. rewrite lookup_empty. simpl. lia.
  - intros k r. simpl. by rewrite lookup_empty.
Qed.

Lemma registry_inv_register s ctx t d h p :
  is_uint (ebook_counter s + 1) = true -> 0 < len t -> 0 < p ->
  (length (get_author_ebooks (tx_sender ctx) s) < 100)%nat ->
  registry_inv s -> registry_inv (registered_state s ctx t d h p).
Proof.
  intros Hu Ht Hp Hroom [Hc Hd Hb Hai Hab Hbi Hbn Hbb Hpd].
  split.
  - done.
  - intros id. simpl. rewrite lookup_insert. case_decide as Hid.
    + subst id. split; [lia|by eexists].
    + rewrite Hd. lia.
  - intros id e. simpl. rewrite lookup_insert. case_decide as Hid; [|apply Hb].
    by intros [= <-].
  - intros a.
    assert (is_author (ebook_counter s + 1) a (registered_state s ctx t d h p)
            = bool_decide (tx_sender ctx = a)) as Hnew.
    { unfold is_author. simpl. by rewrite lookup_insert_eq. }
    assert (get_author_ebooks a (registered_state s ctx t d h p) =
            if decide (tx_sender ctx = a)
            then get_author_ebooks a s ++ [ebook_counter s + 1]
            else get_author_ebooks a s) as ->.
    { unfold get_author_ebooks. simpl. rewrite lookup_insert.
      destruct (decide (tx_sender ctx = a)) as [<-|]; done. }
    unfold books_by. rewrite (book_ids_succ s) by done. rewrite filter_app.
    assert (filter (fun id => is_author id a (registered_state s ctx t d h p) = true)
              (book_ids s) = books_by a s) as ->.
    { apply filter_agree. intros id Hid. apply elem_of_book_ids in Hid.
      unfold is_author. simpl. rewrite lookup_insert_ne by lia. done. }
    rewrite filter_cons, filter_nil, Hai.
    destruct (decide (is_author _ _ _ = true)) as [Hy|Hn]; rewrite Hnew in *.
    + apply bool_decide_eq_true in Hy. by rewrite decide_True.
    + apply not_true_is_false, bool_decide_eq_false in Hn.
      rewrite decide_False by done. by rewrite app_nil_r.
  - intros a. unfold get_author_ebooks. simpl. rewrite lookup_insert.
    case_decide as Ha; [|apply Hab]. simpl. unfold append.
    rewrite length_app. simpl. lia.
  - apply Hbi.
  - apply Hbn.
  - apply Hbb.
  - apply Hpd.
Qed.

Lemma is_author_rewritten op i e s ev id a :
  ebooks s !! i = Some e ->
  is_author id a (set_events ev (set_ebooks (<[i := rewritten op e]> (ebooks s)) s))
  = is_author id a s.
Proof.
  intros He. unfold is_author. simpl. rewrite lookup_insert.
  destruct (decide (i = id)) as [<-|]; [|done]. rewrite He. by destruct op.
Qed.

Lemma registry_inv_step s c : registry_inv s -> registry_inv (snd (step s c)).
Proof.
  intros Hinv.
  destruct (fst (step s c)) as [v|code|] eqn:Ho;
    [|by rewrite (step_failed _ _ _ Ho)|by rewrite (step_aborted _ _ Ho)].
  destruct c as [ctx op].
  assert ((exists t d h p, op = RegisterEbook t d h p) \/
          (exists i, op = BuyEbook i) \/
          ((forall t d h p, op <> RegisterEbook t d h p) /\
           (forall i, op <> BuyEbook i))) as [(t & d & h & p & ->)|[(i & ->)|[Hnr Hnb]]]
    by (destruct op; naive_solver).
  - destruct (register_ebook_committed _ _ _ _ _ _ _ Ho)
      as (Hu & Ht & Hp & Hroom & _ & ->).
    by apply registry_inv_register.
  - pose proof (buy_ebook_committed_room _ _ _ _ Ho) as Hroom.
    destruct (buy_ebook_committed _ _ _ _ Ho)
      as (e & s1 & He & Ha & Hs & Hacc & Ht & _ & ->).
    pose proof (stx_transfer_frame _ _ _ _ _ _ _ Ht) as Hf.
    destruct Hinv as [Hc Hd Hb Hai Hab Hbi Hbn Hbb Hpd].
    assert (forall b, get_buyer_ebooks b
      (set_events
        (events s ++ [ebook_purchased i (tx_sender ctx) (author e)
                        (price e) (get_current_time ctx)])
        (set_buyer_ebooks
           (<[tx_sender ctx := append (get_buyer_ebooks (tx_sender ctx) s) i]>
              (buyer_ebooks s))
           (set_purchases
              (<[(i, tx_sender ctx) :=
                   mk_purchase (get_current_time ctx) (price e)]> (purchases s))
              s1))) =
      if decide (tx_sender ctx = b) then get_buyer_ebooks b s ++ [i]
      else get_buyer_ebooks b s) as Hidx.
    { intros b. unfold get_buyer_ebooks. simpl. rewrite lookup_insert.
      destruct (decide (tx_sender ctx = b)) as [<-|]; done. }
    split.
    + simpl. by rewrite Hf.
    + intros id. simpl. rewrite Hf. simpl. apply Hd.
    + intros id e'. simpl. rewrite Hf. simpl. apply Hb.
    + intros a. rewrite (books_by_ext a s); [|by rewrite Hf|].
      * unfold get_author_ebooks. simpl. rewrite Hf. simpl. apply Hai.
      * intros id _. unfold is_author. simpl. by rewrite Hf.
    + intros a. unfold get_author_ebooks. simpl. rewrite Hf. simpl. apply Hab.
    + intros b id. rewrite Hidx. unfold has_access. simpl. rewrite lookup_insert.
      specialize (Hbi b id). unfold has_access in Hbi.
      destruct (decide (tx_sender ctx = b)) as [<-|Hne].
      * rewrite elem_of_app, list_elem_of_singleton, Hbi.
        destruct (decide ((i, tx_sender ctx) = (id, tx_sender ctx))) as [Hk|Hk].
        -- split; [done|]. intros _. right. congruence.
        -- split; [intros [?|?]; [done|congruence]|by left].
      * rewrite decide_False by congruence. done.
    + intros b. rewrite Hidx. destruct (decide (tx_sender ctx = b)) as [<-|]; [|done].
      apply NoDup_app. split; [done|]. split; [|apply NoDup_singleton].
      intros x Hx Hxi. apply list_elem_of_singleton in Hxi. subst x.
      apply Hbi in Hx. congruence.
    + intros b. rewrite Hidx. destruct (decide (tx_sender ctx = b)) as [<-|]; [|done].
      rewrite length_app. simpl. lia.
    + intros k r. simpl. rewrite lookup_insert. case_decide; [|apply Hpd].
      intros [= <-]. simpl. by apply (Hb i).
  - destruct (rewrite_committed s ctx op v Hnr Hnb Ho)
      as (i & e & ev & Hop & He & Hau & _ & ->).
    destruct Hinv as [Hc Hd Hb Hai Hab Hbi Hbn Hbb Hpd].
    split; try done.
    + intros id. simpl. rewrite lookup_insert. case_decide; [|apply Hd].
      subst id. rewrite <- Hd, He. split; by eexists.
    + intros id e'. simpl. rewrite lookup_insert. case_decide; [|apply Hb].
      subst id. intros [= <-]. destruct (Hb _ _ He) as [Hp Ht].
      destruct Hop as [->|[->|(p & -> & Hpos)]]; simpl; done.
    + intros a. rewrite (books_by_ext a s); [apply Hai|done|].
      intros id _. by apply is_author_rewritten.
Qed.

Lemma registry_inv_reachable s : reachable s -> registry_inv s.
Proof.
  apply reachable_invariant; [apply registry_inv_initial|apply registry_inv_step].
Qed.

(** ** Registration: validation and effect *)

Lemma uint_room n : n < UINT_MAX -> is_uint (n + 1) = true.
Proof. unfold is_uint. intros H. apply N.leb_le. lia. Qed.

(** X1: [register-ebook] validates the title first and the price second,
    both before it looks at the author's index: an empty title is answered
    with [ERR-INVALID-TITLE] (u106) whatever the other arguments are, a zero
    price under a non-empty title with [ERR-INVALID-PRICE] (u105); nothing is
    stored. *)
Theorem register_ebook_validates_title_then_price s ctx t d h p :
  ebook_counter s < UINT_MAX ->
  len t = 0 \/ p = 0 ->
  step s (mk_call ctx (RegisterEbook t d h p)) =
    (failed (if len t =? 0 then ERR_INVALID_TITLE else ERR_INVALID_PRICE), s).
Proof.
  intros Hc Hbad. tx_unfold. cbn [call_op call_ctx].
  rewrite (uint_room _ Hc). simpl.
  destruct (len t =? 0) eqn:Ht.
  - apply N.eqb_eq in Ht. rewrite Ht. done.
  - apply N.eqb_neq in Ht. destruct Hbad as [?| ->]; [done|].
    assert ((0 <? len t) = true) as -> by (apply N.ltb_lt; lia). done.
Qed.

Lemma register_ebook_validates_title_then_price_witness :
  ebook_counter Scenario.full < UINT_MAX /\
  (len "" = 0 \/ 0 = 0) /\
  step Scenario.full (mk_call (mk_context Scenario.alice 11) (RegisterEbook "" "d" [] 0))
    = (failed ERR_INVALID_TITLE, Scenario.full).
Proof.
  assert (ebook_counter Scenario.full < UINT_MAX) as Hc by (vm_compute; reflexivity).
  assert (len "" = 0 \/ 0 = 0) as Hb by (left; reflexivity).
  split; [exact Hc|]. split; [exact Hb|].
  apply (register_ebook_validates_title_then_price Scenario.full
           (mk_context Scenario.alice 11) "" "d" [] 0 Hc Hb).
Defined.

(** X2: a registration with a non-empty title and a positive price by an
    author with fewer than one hundred books commits.  It returns the next
    identifier; [get-ebook] then yields the submitted metadata with the
    caller as author, the block time as creation time and [active] true; the
    identifier is appended to the author's index; no other book, no
    purchase and no balance changes. *)
Theorem register_ebook_commits s ctx t d h p :
  ebook_counter s < UINT_MAX -> 0 < len t -> 0 < p ->
  (length (get_author_ebooks (tx_sender ctx) s) < 100)%nat ->
  let s' := snd (step s (mk_call ctx (RegisterEbook t d h p))) in
  fst (step s (mk_call ctx (RegisterEbook t d h p)))
    = committed (VUint (ebook_counter s + 1)) /\
  get_ebook (ebook_counter s + 1) s'
    = Some (mk_ebook t d h p (tx_sender ctx) (stacks_block_time ctx) true) /\
  get_ebook_count s' = get_ebook_count s + 1 /\
  get_author_ebooks (tx_sender ctx) s'
    = get_author_ebooks (tx_sender ctx) s ++ [ebook_counter s + 1] /\
  (forall id, id <> ebook_counter s + 1 -> get_ebook id s' = get_ebook id s) /\
  purchases s' = purchases s /\ stx s' = stx s.
Proof.
  intros Hc Ht Hp Hroom.
  assert (fst (step s (mk_call ctx (RegisterEbook t d h p)))
          = committed (VUint (ebook_counter s + 1))) as Ho.
  { tx_unfold. cbn [call_op call_ctx]. rewrite (uint_room _ Hc). simpl.
    apply N.ltb_lt in Ht, Hp. rewrite Ht, Hp. simpl.
    unfold get_author_ebooks in Hroom.
    assert (as_max_len
              (append (default [] (author_ebooks s !! tx_sender ctx))
                 (ebook_counter s + 1)) 100
            = Some (append (default [] (author_ebooks s !! tx_sender ctx))
                      (ebook_counter s + 1))) as ->; [|done].
    apply as_max_len_Some. split; [done|].
    unfold append. rewrite length_app. simpl. lia. }
  destruct (register_ebook_committed _ _ _ _ _ _ _ Ho) as (_ & _ & _ & _ & _ & Hs').
  cbv zeta. rewrite Hs'. unfold get_ebook, get_ebook_count, get_author_ebooks. simpl.
  split; [done|]. split; [by rewrite lookup_insert_eq|]. split; [done|].
  split; [by rewrite lookup_insert_eq|]. split; [|done].
  intros id Hid. by rewrite lookup_insert_ne.
Qed.

Lemma register_ebook_commits_witness :
  ebook_counter Scenario.sold < UINT_MAX /\
  0 < len "Second" /\ 0 < 7 /\
  fst (step Scenario.sold
         (mk_call (mk_context Scenario.bob 12) (RegisterEbook "Second" "" [] 7)))
    = committed (VUint (ebook_counter Scenario.sold + 1)).
Proof.
  assert (ebook_counter Scenario.sold < UINT_MAX) as Hc by (vm_compute; reflexivity).
  assert (0 < len "Second") as Ht by (vm_compute; reflexivity).
  assert (0 < 7) as Hp by lia.
  assert (length (get_author_ebooks (tx_sender (mk_context Scenario.bob 12))
                    Scenario.sold) < 100)%nat as Hr by (vm_compute; lia).
  split; [exact Hc|]. split; [exact Ht|]. split; [exact Hp|].
  apply (register_ebook_commits Scenario.sold (mk_context Scenario.bob 12)
           "Second" "" [] 7 Hc Ht Hp Hr).
Defined.

(** ** The registry in reachable states *)

(** X3: in every reachable state the books are exactly those numbered
    [1 .. get-ebook-count]: [ebook-exists] holds for these identifiers and
    for no other, so no identifier is skipped and no book is ever removed. *)
Theorem ebook_exists_iff_in_range s id :
  reachable s ->
  ebook_exists id s = true <-> 1 <= id <= get_ebook_count s.
Proof.
  intros Hs. destruct (registry_inv_reachable _ Hs) as [_ Hd _ _ _ _ _ _ _].
  unfold ebook_exists, get_ebook_count. by rewrite bool_decide_eq_true, Hd.
Qed.

Lemma ebook_exists_iff_in_range_witness :
  reachable Scenario.full /\
  (ebook_exists 100 Scenario.full = true <-> 1 <= 100 <= get_ebook_count Scenario.full).
Proof.
  assert (reachable Scenario.full) as Hs
    by (exists Scenario.funded, Scenario.filling; reflexivity).
  split; [exact Hs|]. apply (ebook_exists_iff_in_range Scenario.full 100 Hs).
Defined.

(** X4: in every reachable state [get-ebook-price] answers [(ok p)] with
    [p > 0] for the identifiers [1 .. get-ebook-count] and
    [ERR-EBOOK-NOT-FOUND] (u101) for every other one; every stored book has a
    non-empty title and every purchase record a positive price paid. *)
Theorem stored_prices_positive s :
  reachable s ->
  (forall id, 1 <= id <= get_ebook_count s ->
     exists e, get_ebook id s = Some e /\ get_ebook_price id s = ok (price e) /\
       0 < price e /\ 0 < len (title e)) /\
  (forall id, ~ (1 <= id <= get_ebook_count s) ->
     get_ebook_price id s = err ERR_EBOOK_NOT_FOUND) /\
  (forall b id r, get_purchase b id s = Some r -> 0 < price_paid r).
Proof.
  intros Hs. destruct (registry_inv_reachable _ Hs) as [_ Hd Hb _ _ _ _ _ Hpd].
  unfold get_ebook, get_ebook_price, get_ebook_count, get_purchase.
  split; [|split].
  - intros id Hid. apply Hd in Hid as [e He]. exists e. rewrite He.
    destruct (Hb _ _ He). done.
  - intros id Hid. destruct (ebooks s !! id) as [e|] eqn:He; [|done].
    destruct Hid. apply Hd. by eexists.
  - intros b id r. apply Hpd.
Qed.

Lemma stored_prices_positive_witness :
  reachable Scenario.sold /\
  get_ebook_price 1 Scenario.sold = ok 1000000 /\
  get_ebook_price 2 Scenario.sold = err ERR_EBOOK_NOT_FOUND.
Proof.
  assert (reachable Scenario.sold) as Hs
    by (exists Scenario.funded, Scenario.selling; reflexivity).
  destruct (stored_prices_positive Scenario.sold Hs) as (_ & Hout & _).
  split; [exact Hs|]. split; [vm_compute; reflexivity|].
  apply Hout. vm_compute. intros [_ H]. apply H. reflexivity.
Defined.

Lemma step_book_kept s c id e :
  registry_inv s -> ebooks s !! id = Some e ->
  exists e', ebooks (snd (step s c)) !! id = Some e' /\
    title e' = title e /\ description e' = description e /\
    content_hash e' = content_hash e /\ author e' = author e /\
    created_at e' = created_at e.
Proof.
  intros Hinv He.
  destruct (fst (step s c)) as [v|code|] eqn:Ho;
    [|rewrite (step_failed _ _ _ Ho); by exists e
     |rewrite (step_aborted _ _ Ho); by exists e].
  destruct c as [ctx op].
  assert ((exists t d h p, op = RegisterEbook t d h p) \/
          (exists i, op = BuyEbook i) \/
          ((forall t d h p, op <> RegisterEbook t d h p) /\
           (forall i, op <> BuyEbook i))) as [(t & d & h & p & ->)|[(i & ->)|[Hnr Hnb]]]
    by (destruct op; naive_solver).
  - destruct (register_ebook_committed _ _ _ _ _ _ _ Ho) as (_ & _ & _ & _ & _ & ->).
    exists e. split; [|done]. simpl. rewrite lookup_insert_ne; [done|].
    assert (1 <= id <= ebook_counter s) by (apply (inv_dense s Hinv); by eexists).
    lia.
  - destruct (buy_ebook_committed _ _ _ _ Ho)
      as (e0 & s1 & _ & _ & _ & _ & Ht & _ & ->).
    exists e. split; [|done]. simpl.
    by rewrite (stx_transfer_frame _ _ _ _ _ _ _ Ht).
  - destruct (rewrite_committed s ctx op v Hnr Hnb Ho)
      as (i & e0 & ev & Hop & He0 & _ & _ & ->).
    simpl. rewrite lookup_insert. destruct (decide (i = id)) as [->|]; [|by exists e].
    rewrite He in He0. injection He0 as <-. eexists. split; [done|].
    by destruct op.
Qed.

(** X5: a registered book is never removed and its title, description,
    content hash, author and creation time never change, whatever calls
    follow; only the price and the active flag can differ. *)
Theorem book_metadata_is_permanent s id e cs :
  reachable s ->
  get_ebook id s = Some e ->
  exists e', get_ebook id (run_state s cs) = Some e' /\
    title e' = title e /\ description e' = description e /\
    content_hash e' = content_hash e /\ author e' = author e /\
    created_at e' = created_at e.
Proof.
  unfold get_ebook. revert s e. induction cs as [|c cs IH]; intros s e Hs He.
  - by exists e.
  - rewrite run_state_cons.
    destruct (step_book_kept s c id e (registry_inv_reachable _ Hs) He)
      as (e1 & He1 & Ht & Hd & Hh & Ha & Hc).
    destruct (IH _ e1 (reachable_step s c Hs) He1)
      as (e' & He' & Ht' & Hd' & Hh' & Ha' & Hc').
    exists e'. split; [done|]. repeat split; congruence.
Qed.

Lemma book_metadata_is_permanent_witness :
  reachable Scenario.listed /\
  get_ebook 1 Scenario.listed
    = Some (mk_ebook "Test eBook" "A test ebook" [] 1000000 Scenario.alice 10 true) /\
  exists e', get_ebook 1
      (run_state Scenario.listed
         [Scenario.at_time Scenario.alice 11 (UpdatePrice 1 5);
          Scenario.at_time Scenario.alice 12 (DeactivateEbook 1)]) = Some e' /\
    title e' = "Test eBook" /\ author e' = Scenario.alice.
Proof.
  assert (reachable Scenario.listed) as Hs
    by (exists Scenario.funded, Scenario.listing; reflexivity).
  assert (get_ebook 1 Scenario.listed
    = Some (mk_ebook "Test eBook" "A test ebook" [] 1000000 Scenario.alice 10 true))
    as He by (vm_compute; reflexivity).
  destruct (book_metadata_is_permanent Scenario.listed 1 _
              [Scenario.at_time Scenario.alice 11 (UpdatePrice 1 5);
               Scenario.at_time Scenario.alice 12 (DeactivateEbook 1)] Hs He)
    as (e' & He' & Ht & _ & _ & Ha & _).
  split; [exact Hs|]. split; [exact He|].
  exists e'. split; [exact He'|]. split; [exact Ht|exact Ha].
Defined.

(** X6: in every reachable state [get-author-ebooks] of a principal is the
    list of the identifiers of the books that principal registered, in
    increasing order and without repetition; an identifier is in the list
    exactly when [is-author] holds; the list never has more than one hundred
    entries. *)
Theorem author_index_is_exact s a :
  reachable s ->
  get_author_ebooks a s = books_by a s /\
  (forall id, id ∈ get_author_ebooks a s <-> is_author id a s = true) /\
  NoDup (get_author_ebooks a s) /\
  (length (get_author_ebooks a s) <= 100)%nat.
Proof.
  intros Hs. destruct (registry_inv_reachable _ Hs) as [_ Hd _ Hai Hab _ _ _ _].
  split; [apply Hai|]. split; [|split; [|apply Hab]].
  - intros id. rewrite Hai. unfold books_by. rewrite list_elem_of_filter.
    split; [by intros [? _]|]. intros Hid. split; [done|].
    apply elem_of_book_ids, Hd. unfold is_author in Hid.
    destruct (ebooks s !! id); [by eexists|done].
  - rewrite Hai. unfold books_by, book_ids. apply NoDup_filter.
    apply NoDup_fmap; [|apply NoDup_seq]. intros x y. lia.
Qed.

Lemma author_index_is_exact_witness :
  reachable Scenario.sold /\
  get_author_ebooks Scenario.alice Scenario.sold = books_by Scenario.alice Scenario.sold /\
  get_author_ebooks Scenario.alice Scenario.sold = [1].
Proof.
  assert (reachable Scenario.sold) as Hs
    by (exists Scenario.funded, Scenario.selling; reflexivity).
  split; [exact Hs|].
  split; [apply (author_index_is_exact Scenario.sold Scenario.alice Hs)|].
  vm_compute. reflexivity.
Defined.

(** X7: in every reachable state [get-buyer-ebooks] of a principal holds
    exactly the identifiers that principal has access to, each once, and at
    most one hundred of them. *)
Theorem buyer_index_is_exact s b :
  reachable s ->
  (forall id, id ∈ get_buyer_ebooks b s <-> has_access b id s = true) /\
  NoDup (get_buyer_ebooks b s) /\
  (length (get_buyer_ebooks b s) <= 100)%nat.
Proof.
  intros Hs. destruct (registry_inv_reachable _ Hs) as [_ _ _ _ _ Hbi Hbn Hbb _].
  split; [apply Hbi|]. split; [apply Hbn|apply Hbb].
Qed.

Lemma buyer_index_is_exact_witness :
  reachable Scenario.sold /\
  (1 ∈ get_buyer_ebooks Scenario.bob Scenario.sold
   <-> has_access Scenario.bob 1 Scenario.sold = true) /\
  NoDup (get_buyer_ebooks Scenario.bob Scenario.sold).
Proof.
  assert (reachable Scenario.sold) as Hs
    by (exists Scenario.funded, Scenario.selling; reflexivity).
  destruct (buyer_index_is_exact Scenario.sold Scenario.bob Hs) as (Hi & Hn & _).
  split; [exact Hs|]. split; [apply Hi|exact Hn].
Defined.

(** ** The STX ledger *)

Local Abbreviation supply_of m :=
  (map_fold (fun (_ : string) (v acc : N) => v + acc) 0 m).

Lemma supply_of_insert (m : gmap string N) k v :
  supply_of (<[k := v]> m) + default 0 (m !! k) = supply_of m + v.
Proof.
  destruct (m !! k) as [x|] eqn:Hk; simpl.
  - rewrite <- (insert_delete_eq m).
    rewrite map_fold_insert_L; [|intros; lia|apply lookup_delete_eq].
    rewrite (map_fold_delete_L _ _ k x m); [lia|intros; lia|done].
  - rewrite map_fold_insert_L; [lia|intros; lia|done].
Qed.

Lemma stx_transfer_supply amount sender recipient ctx s r s1 :
  stx_transfer amount sender recipient ctx s = (Next r, s1) ->
  stx_supply s1 = stx_supply s.
Proof.
  unfold stx_transfer, stx_supply. intros H.
  repeat case_match; simplify_eq; try done. simpl.
  match goal with Hlt : (_ <? _) = false |- _ => apply N.ltb_ge in Hlt end.
  pose proof (supply_of_insert (stx s) sender (stx_get_balance sender s - amount)) as Hd.
  pose proof (supply_of_insert
                (<[sender := stx_get_balance sender s - amount]> (stx s)) recipient
                (default 0 (<[sender := stx_get_balance sender s - amount]> (stx s)
                            !! recipient) + amount)) as Hcr.
  unfold stx_get_balance in *. lia.
Qed.

Lemma step_supply s c : stx_supply (snd (step s c)) = stx_supply s.
Proof.
  destruct (fst (step s c)) as [v|code|] eqn:Ho;
    [|by rewrite (step_failed _ _ _ Ho)|by rewrite (step_aborted _ _ Ho)].
  destruct c as [ctx op].
  assert ((exists t d h p, op = RegisterEbook t d h p) \/
          (exists i, op = BuyEbook i) \/
          ((forall t d h p, op <> RegisterEbook t d h p) /\
           (forall i, op <> BuyEbook i))) as [(t & d & h & p & ->)|[(i & ->)|[Hnr Hnb]]]
    by (destruct op; naive_solver).
  - by destruct (register_ebook_committed _ _ _ _ _ _ _ Ho) as (_ & _ & _ & _ & _ & ->).
  - destruct (buy_ebook_committed _ _ _ _ Ho)
      as (e0 & s1 & _ & _ & _ & _ & Ht & _ & ->).
    apply (stx_transfer_supply _ _ _ _ _ _ _ Ht).
  - by destruct (rewrite_committed s ctx op v Hnr Hnb Ho)
      as (i & e0 & ev & _ & _ & _ & _ & ->).
Qed.

(** X8: no call creates or destroys STX: the sum of all balances is the
    same after any sequence of calls, committed or not. *)
Theorem stx_supply_is_conserved s cs :
  stx_supply (run_state s cs) = stx_supply s.
Proof.
  revert s. induction cs as [|c cs IH]; intros s; [done|].
  by rewrite run_state_cons, IH, step_supply.
Qed.

Example stx_supply_of_scenario :
  stx_supply Scenario.genesis = 200000500 /\ stx_supply Scenario.sold = 200000500.
Proof. vm_compute. split; reflexivity. Qed.

(** ** Buying *)

Lemma stx_transfer_ok amount sender recipient ctx s :
  0 < amount -> sender <> recipient -> sender = tx_sender ctx ->
  amount <= stx_get_balance sender s ->
  stx_transfer amount sender recipient ctx s =
    (Next (ok true),
     set_stx (<[recipient := stx_get_balance recipient s + amount]>
                (<[sender := stx_get_balance sender s - amount]> (stx s))) s).
Proof.
  intros Hpos Hne Hs Hbal. unfold stx_transfer.
  assert ((amount =? 0) = false) as -> by (apply N.eqb_neq; lia).
  rewrite bool_decide_eq_false_2 by done.
  rewrite bool_decide_eq_true_2 by done. simpl.
  assert ((stx_get_balance sender s <? amount) = false) as -> by (apply N.ltb_ge; lia).
  rewrite lookup_insert_ne by done. done.
Qed.

Lemma stx_transfer_short amount sender recipient ctx s :
  stx_get_balance sender s < amount -> exists code,
  stx_transfer amount sender recipient ctx s = (Next (err code), s).
Proof.
  intros Hbal. unfold stx_transfer. apply N.ltb_lt in Hbal.
  repeat case_match; eauto; congruence.
Qed.

(** X9: [buy-ebook] on an active book with a positive price, by a principal
    other than the author who does not own the book yet, has fewer than one
    hundred books and holds at least the price, commits: exactly the price
    moves from the buyer to the author and no other balance changes, the
    purchase record holds the block time and the price, [has-access] becomes
    true, the identifier is appended to the buyer's index and the books are
    untouched. *)
Theorem buy_ebook_commits s ctx ebook_id e :
  get_ebook ebook_id s = Some e -> active e = true -> 0 < price e ->
  tx_sender ctx <> author e ->
  has_access (tx_sender ctx) ebook_id s = false ->
  price e <= stx_get_balance (tx_sender ctx) s ->
  (length (get_buyer_ebooks (tx_sender ctx) s) < 100)%nat ->
  let s' := snd (step s (mk_call ctx (BuyEbook ebook_id))) in
  fst (step s (mk_call ctx (BuyEbook ebook_id))) = committed (VBool true) /\
  stx_get_balance (tx_sender ctx) s' = stx_get_balance (tx_sender ctx) s - price e /\
  stx_get_balance (author e) s' = stx_get_balance (author e) s + price e /\
  (forall who, who <> tx_sender ctx -> who <> author e ->
     stx_get_balance who s' = stx_get_balance who s) /\
  get_purchase (tx_sender ctx) ebook_id s'
    = Some (mk_purchase (stacks_block_time ctx) (price e)) /\
  has_access (tx_sender ctx) ebook_id s' = true /\
  get_buyer_ebooks (tx_sender ctx) s'
    = get_buyer_ebooks (tx_sender ctx) s ++ [ebook_id] /\
  ebooks s' = ebooks s.
Proof.
  unfold get_ebook. intros He Ha Hp Hs Hacc Hbal Hroom.
  pose proof (stx_transfer_ok (price e) (tx_sender ctx) (author e) ctx s
                Hp Hs eq_refl Hbal) as Ht.
  assert (fst (step s (mk_call ctx (BuyEbook ebook_id))) = committed (VBool true))
    as Ho.
  { unfold step, call_public, exec, fmap_tx, bind. cbn [call_op call_ctx].
    unfold buy_ebook, bind, gets, unwrap, asserts. rewrite He, Ha. simpl.
    rewrite bool_decide_eq_false_2 by done. simpl. rewrite Hacc. simpl.
    rewrite Ht. simpl. unfold modify. simpl.
    unfold get_buyer_ebooks in Hroom.
    assert (as_max_len
              (append (default [] (buyer_ebooks s !! tx_sender ctx)) ebook_id) 100
            = Some (append (default [] (buyer_ebooks s !! tx_sender ctx)) ebook_id))
      as ->; [|done].
    apply as_max_len_Some. split; [done|].
    unfold append. rewrite length_app. simpl. lia. }
  destruct (buy_ebook_committed _ _ _ _ Ho)
    as (e' & s1 & He' & _ & _ & _ & Ht' & _ & Hs').
  rewrite He in He'. injection He' as <-. rewrite Ht in Ht'. injection Ht' as <-.
  cbv zeta. rewrite Hs'.
  unfold stx_get_balance, get_purchase, has_access, get_buyer_ebooks. simpl.
  split; [done|].
  split; [by rewrite lookup_insert_ne, lookup_insert_eq by done|].
  split; [by rewrite lookup_insert_eq|].
  split; [intros who H1 H2; by rewrite !lookup_insert_ne by done|].
  split; [by rewrite lookup_insert_eq|].
  split; [by rewrite lookup_insert_eq|].
  split; [by rewrite lookup_insert_eq|done].
Qed.

Lemma buy_ebook_commits_witness :
  get_ebook 1 Scenario.listed
    = Some (mk_ebook "Test eBook" "A test ebook" [] 1000000 Scenario.alice 10 true) /\
  1000000 <= stx_get_balance Scenario.bob Scenario.listed /\
  fst (step Scenario.listed (mk_call (mk_context Scenario.bob 11) (BuyEbook 1)))
    = committed (VBool true) /\
  stx_get_balance Scenario.bob
    (snd (step Scenario.listed (mk_call (mk_context Scenario.bob 11) (BuyEbook 1))))
    = stx_get_balance Scenario.bob Scenario.listed - 1000000.
Proof.
  assert (get_ebook 1 Scenario.listed
    = Some (mk_ebook "Test eBook" "A test ebook" [] 1000000 Scenario.alice 10 true))
    as He by (vm_compute; reflexivity).
  assert (1000000 <= stx_get_balance Scenario.bob Scenario.listed) as Hb
    by (vm_compute; discriminate).
  assert (tx_sender (mk_context Scenario.bob 11) <> Scenario.alice) as Hs
    by (vm_compute; discriminate).
  assert (has_access (tx_sender (mk_context Scenario.bob 11)) 1 Scenario.listed = false)
    as Hacc by (vm_compute; reflexivity).
  assert (length (get_buyer_ebooks (tx_sender (mk_context Scenario.bob 11))
                    Scenario.listed) < 100)%nat as Hr by (vm_compute; lia).
  assert (0 < 1000000) as Hp by lia.
  destruct (buy_ebook_commits Scenario.listed (mk_context Scenario.bob 11) 1 _
              He eq_refl Hp Hs Hacc Hb Hr) as (Ho & Hbob & _).
  split; [exact He|]. split; [exact Hb|]. split; [exact Ho|exact Hbob].
Defined.

Lemma buy_ebook_after_transfer s ctx ebook_id e s1 :
  ebooks s !! ebook_id = Some e -> active e = true ->
  tx_sender ctx <> author e ->
  has_access (tx_sender ctx) ebook_id s = false ->
  stx_transfer (price e) (tx_sender ctx) (author e) ctx s = (Next (ok true), s1) ->
  buy_ebook ebook_id ctx s =
    let s2 := set_purchases
                (<[(ebook_id, tx_sender ctx) :=
                     mk_purchase (get_current_time ctx) (price e)]> (purchases s1)) s1 in
    if (length (get_buyer_ebooks (tx_sender ctx) s) <? 100)%nat
    then (Next true,
          set_events
            (events s2 ++ [ebook_purchased ebook_id (tx_sender ctx) (author e)
                             (price e) (get_current_time ctx)])
            (set_buyer_ebooks
               (<[tx_sender ctx := append (get_buyer_ebooks (tx_sender ctx) s) ebook_id]>
                  (buyer_ebooks s2)) s2))
    else (Exit ERR_NOT_AUTHORIZED, s2).
Proof.
  intros He Ha Hs Hacc Ht.
  unfold buy_ebook, bind, gets, unwrap, asserts. rewrite He, Ha. simpl.
  rewrite bool_decide_eq_false_2 by done. simpl. rewrite Hacc. simpl.
  rewrite Ht. simpl. unfold modify, get_buyer_ebooks. simpl.
  unfold as_max_len, append. rewrite length_app. simpl.
  destruct (length (default [] (buyer_ebooks s !! tx_sender ctx)) <? 100)%nat eqn:Hl.
  - apply Nat.ltb_lt in Hl.
    assert ((N.of_nat (length (default [] (buyer_ebooks s !! tx_sender ctx)) + 1) <=? 100)
            = true) as -> by (apply N.leb_le; lia). done.
  - apply Nat.ltb_ge in Hl.
    assert ((N.of_nat (length (default [] (buyer_ebooks s !! tx_sender ctx)) + 1) <=? 100)
            = false) as -> by (apply N.leb_gt; lia). done.
Qed.

(** X10: in a reachable state, when the guards of [buy-ebook] are passed
    (active book, caller not the author, not yet owned), the call fails with
    [ERR-TRANSFER-FAILED] (u108) exactly when the caller's balance is below
    the price. *)
Theorem transfer_fails_iff_short_of_funds s ctx ebook_id e :
  reachable s ->
  get_ebook ebook_id s = Some e -> active e = true ->
  tx_sender ctx <> author e ->
  has_access (tx_sender ctx) ebook_id s = false ->
  fst (step s (mk_call ctx (BuyEbook ebook_id))) = failed ERR_TRANSFER_FAILED
  <-> stx_get_balance (tx_sender ctx) s < price e.
Proof.
  unfold get_ebook. intros Hr He Ha Hs Hacc.
  destruct (inv_book s (registry_inv_reachable _ Hr) _ _ He) as [Hp _].
  split.
  - intros Ho. destruct (N.lt_ge_cases (stx_get_balance (tx_sender ctx) s) (price e))
      as [|Hbal]; [done|]. exfalso.
    pose proof (stx_transfer_ok (price e) (tx_sender ctx) (author e) ctx s
                  Hp Hs eq_refl Hbal) as Ht.
    revert Ho. unfold step, call_public, exec, fmap_tx, bind. cbn [call_op call_ctx].
    rewrite (buy_ebook_after_transfer _ _ _ _ _ He Ha Hs Hacc Ht). cbv zeta.
    by destruct (_ <? _)%nat.
  - intros Hbal.
    destruct (stx_transfer_short (price e) _ (author e) ctx s Hbal) as [code Ht].
    by rewrite (step_buy_exit _ _ _ _ _ (buy_ebook_unpaid _ _ _ _ _ _ He Ha Hs Hacc Ht)).
Qed.

Lemma transfer_fails_iff_short_of_funds_witness :
  reachable Scenario.listed /\
  (stx_get_balance Scenario.carol Scenario.listed < 1000000) /\
  fst (step Scenario.listed (mk_call (mk_context Scenario.carol 11) (BuyEbook 1)))
    = failed ERR_TRANSFER_FAILED.
Proof.
  assert (reachable Scenario.listed) as Hs
    by (exists Scenario.funded, Scenario.listing; reflexivity).
  assert (get_ebook 1 Scenario.listed
    = Some (mk_ebook "Test eBook" "A test ebook" [] 1000000 Scenario.alice 10 true))
    as He by (vm_compute; reflexivity).
  assert (stx_get_balance Scenario.carol Scenario.listed < 1000000) as Hb
    by (vm_compute; reflexivity).
  split; [exact Hs|]. split; [exact Hb|].
  refine (proj2 (transfer_fails_iff_short_of_funds Scenario.listed
                   (mk_context Scenario.carol 11) 1 _ Hs He eq_refl _ _) Hb).
  - vm_compute. discriminate.
  - vm_compute. reflexivity.
Defined.

(** X11: when the buyer's index already holds one hundred identifiers, a
    [buy-ebook] that passes every guard and whose transfer succeeds still
    fails, with [ERR-NOT-AUTHORIZED] (u100).  The body has by then moved the
    STX and written the purchase record; the host undoes both, so the caller
    keeps the money and gains no access. *)
Theorem buy_ebook_index_full s ctx ebook_id e :
  get_ebook ebook_id s = Some e -> active e = true -> 0 < price e ->
  tx_sender ctx <> author e ->
  has_access (tx_sender ctx) ebook_id s = false ->
  price e <= stx_get_balance (tx_sender ctx) s ->
  length (get_buyer_ebooks (tx_sender ctx) s) = 100%nat ->
  step s (mk_call ctx (BuyEbook ebook_id)) = (failed ERR_NOT_AUTHORIZED, s) /\
  fst (buy_ebook ebook_id ctx s) = Exit ERR_NOT_AUTHORIZED /\
  has_access (tx_sender ctx) ebook_id (snd (buy_ebook ebook_id ctx s)) = true /\
  stx_get_balance (tx_sender ctx) (snd (buy_ebook ebook_id ctx s))
    = stx_get_balance (tx_sender ctx) s - price e.
Proof.
  unfold get_ebook. intros He Ha Hp Hs Hacc Hbal Hfull.
  pose proof (stx_transfer_ok (price e) (tx_sender ctx) (author e) ctx s
                Hp Hs eq_refl Hbal) as Ht.
  pose proof (buy_ebook_after_transfer _ _ _ _ _ He Ha Hs Hacc Ht) as Hb.
  rewrite Hfull in Hb. cbv zeta in Hb. simpl in Hb.
  split; [by rewrite (step_buy_exit _ _ _ _ _ Hb)|]. rewrite Hb. simpl.
  split; [done|]. unfold has_access, stx_get_balance. simpl.
  split; [by rewrite lookup_insert_eq|].
  by rewrite lookup_insert_ne, lookup_insert_eq by done.
Qed.

Lemma buy_ebook_index_full_witness :
  length (get_buyer_ebooks Scenario.bob Crowd.crowded) = 100%nat /\
  get_ebook 101 Crowd.crowded
    = Some (mk_ebook "One more" "" [] 1 Scenario.carol 21 true) /\
  step Crowd.crowded (mk_call (mk_context Scenario.bob 31) (BuyEbook 101))
    = (failed ERR_NOT_AUTHORIZED, Crowd.crowded).
Proof.
  assert (length (get_buyer_ebooks (tx_sender (mk_context Scenario.bob 31))
                    Crowd.crowded) = 100%nat) as Hl by (vm_compute; reflexivity).
  assert (get_ebook 101 Crowd.crowded
    = Some (mk_ebook "One more" "" [] 1 Scenario.carol 21 true)) as He
    by (vm_compute; reflexivity).
  assert (0 < 1) as Hp by lia.
  assert (tx_sender (mk_context Scenario.bob 31) <> Scenario.carol) as Hs
    by (vm_compute; discriminate).
  assert (has_access (tx_sender (mk_context Scenario.bob 31)) 101 Crowd.crowded = false)
    as Hacc by (vm_compute; reflexivity).
  assert (1 <= stx_get_balance (tx_sender (mk_context Scenario.bob 31)) Crowd.crowded)
    as Hb by (vm_compute; discriminate).
  split; [exact Hl|]. split; [exact He|].
  apply (buy_ebook_index_full Crowd.crowded (mk_context Scenario.bob 31) 101 _
           He eq_refl Hp Hs Hacc Hb Hl).
Defined.

(** ** Author-only operations: errors and composition *)

(** X12: [update-price], [deactivate-ebook] and [reactivate-ebook] on an
    identifier that names no book fail with [ERR-EBOOK-NOT-FOUND] (u101) for
    every caller and every price; the existence check comes before the
    author check and the price check. *)
Theorem author_operations_on_missing_book s ctx ebook_id new_price :
  get_ebook ebook_id s = None ->
  step s (mk_call ctx (UpdatePrice ebook_id new_price))
    = (failed ERR_EBOOK_NOT_FOUND, s) /\
  step s (mk_call ctx (DeactivateEbook ebook_id)) = (failed ERR_EBOOK_NOT_FOUND, s) /\
  step s (mk_call ctx (ReactivateEbook ebook_id)) = (failed ERR_EBOOK_NOT_FOUND, s).
Proof.
  unfold get_ebook. intros He.
  repeat split; tx_unfold; cbn [call_op call_ctx]; by rewrite He.
Qed.

Lemma author_operations_on_missing_book_witness :
  get_ebook 2 Scenario.sold = None /\
  step Scenario.sold (mk_call (mk_context Scenario.alice 12) (UpdatePrice 2 0))
    = (failed ERR_EBOOK_NOT_FOUND, Scenario.sold).
Proof.
  assert (get_ebook 2 Scenario.sold = None) as He by (vm_compute; reflexivity).
  split; [exact He|].
  apply (author_operations_on_missing_book Scenario.sold
           (mk_context Scenario.alice 12) 2 0 He).
Defined.

(** X13: [update-price] by the author with a zero price fails with
    [ERR-INVALID-PRICE] (u105) and leaves the book as it was, so a stored
    price can never become zero. *)
Theorem update_price_rejects_zero s ctx ebook_id e :
  get_ebook ebook_id s = Some e ->
  tx_sender ctx = author e ->
  step s (mk_call ctx (UpdatePrice ebook_id 0)) = (failed ERR_INVALID_PRICE, s).
Proof.
  unfold get_ebook. intros He Hs. tx_unfold. cbn [call_op call_ctx].
  rewrite He. simpl. by rewrite bool_decide_eq_true_2.
Qed.

Lemma update_price_rejects_zero_witness :
  get_ebook 1 Scenario.sold
    = Some (mk_ebook "Test eBook" "A test ebook" [] 1000000 Scenario.alice 10 true) /\
  step Scenario.sold (mk_call (mk_context Scenario.alice 12) (UpdatePrice 1 0))
    = (failed ERR_INVALID_PRICE, Scenario.sold).
Proof.
  assert (get_ebook 1 Scenario.sold
    = Some (mk_ebook "Test eBook" "A test ebook" [] 1000000 Scenario.alice 10 true))
    as He by (vm_compute; reflexivity).
  split; [exact He|].
  apply (update_price_rejects_zero Scenario.sold (mk_context Scenario.alice 12) 1 _ He).
  reflexivity.
Defined.

Lemma set_active_commits s ctx ebook_id e (b : bool) :
  ebooks s !! ebook_id = Some e -> tx_sender ctx = author e ->
  step s (mk_call ctx (if b then ReactivateEbook ebook_id else DeactivateEbook ebook_id))
  = (committed (VBool true),
     set_events
       (events s ++ [if b then ebook_reactivated ebook_id (tx_sender ctx)
                                 (get_current_time ctx)
                     else ebook_deactivated ebook_id (tx_sender ctx)
                            (get_current_time ctx)])
       (set_ebooks (<[ebook_id := merge_active e b]> (ebooks s)) s)).
Proof.
  intros He Hs. destruct b; tx_unfold; cbn [call_op call_ctx];
    rewrite He; simpl; by rewrite bool_decide_eq_true_2.
Qed.

(** X14: the author can always deactivate and reactivate a book.
    [deactivate-ebook] followed by [reactivate-ebook] leaves the record with
    [active] true and every other field as before, so an active book gets its
    exact record back; in between, [buy-ebook] fails with
    [ERR-EBOOK-NOT-FOUND] for every caller; no other book changes. *)
Theorem deactivate_then_reactivate s ctx1 ctx2 ebook_id e :
  get_ebook ebook_id s = Some e ->
  tx_sender ctx1 = author e -> tx_sender ctx2 = author e ->
  let s1 := snd (step s (mk_call ctx1 (DeactivateEbook ebook_id))) in
  let s2 := snd (step s1 (mk_call ctx2 (ReactivateEbook ebook_id))) in
  fst (step s (mk_call ctx1 (DeactivateEbook ebook_id))) = committed (VBool true) /\
  fst (step s1 (mk_call ctx2 (ReactivateEbook ebook_id))) = committed (VBool true) /\
  get_ebook ebook_id s1 = Some (merge_active e false) /\
  (forall ctx, step s1 (mk_call ctx (BuyEbook ebook_id))
                 = (failed ERR_EBOOK_NOT_FOUND, s1)) /\
  get_ebook ebook_id s2 = Some (merge_active e true) /\
  (active e = true -> ebooks s2 = ebooks s) /\
  (forall other, other <> ebook_id -> get_ebook other s2 = get_ebook other s).
Proof.
  unfold get_ebook. intros He H1 H2. cbv zeta.
  rewrite (set_active_commits s ctx1 ebook_id e false He H1). simpl.
  set (s1 := set_events _ _).
  assert (ebooks s1 !! ebook_id = Some (merge_active e false)) as He1
    by (subst s1; simpl; by rewrite lookup_insert_eq).
  rewrite (set_active_commits s1 ctx2 ebook_id _ true He1 H2). simpl.
  split; [done|]. split; [done|]. split; [done|].
  split; [intros ctx; by eapply step_buy_exit, buy_ebook_inactive|].
  rewrite insert_insert_eq.
  split; [by rewrite lookup_insert_eq|]. split.
  - intros Ha. apply insert_id. rewrite He. f_equal. destruct e. simpl in *. by subst.
  - intros other Hne. by rewrite lookup_insert_ne.
Qed.

Lemma deactivate_then_reactivate_witness :
  get_ebook 1 Scenario.sold
    = Some (mk_ebook "Test eBook" "A test ebook" [] 1000000 Scenario.alice 10 true) /\
  get_ebook 1
    (snd (step (snd (step Scenario.sold
                       (mk_call (mk_context Scenario.alice 12) (DeactivateEbook 1))))
            (mk_call (mk_context Scenario.alice 13) (ReactivateEbook 1))))
    = Some (merge_active
              (mk_ebook "Test eBook" "A test ebook" [] 1000000 Scenario.alice 10 true)
              true).
Proof.
  assert (get_ebook 1 Scenario.sold
    = Some (mk_ebook "Test eBook" "A test ebook" [] 1000000 Scenario.alice 10 true))
    as He by (vm_compute; reflexivity).
  destruct (deactivate_then_reactivate Scenario.sold (mk_context Scenario.alice 12)
              (mk_context Scenario.alice 13) 1 _ He eq_refl eq_refl)
    as (_ & _ & _ & _ & H2 & _).
  split; [exact He|exact H2].
Defined.

(** ** The event log *)

Lemma step_events s c :
  exists evs, events (snd (step s c)) = events s ++ evs /\
    length evs = if is_committed (fst (step s c)) then 1%nat else 0%nat.
Proof.
  destruct (fst (step s c)) as [v|code|] eqn:Ho;
    [|exists []; rewrite (step_failed _ _ _ Ho); by rewrite app_nil_r
     |exists []; rewrite (step_aborted _ _ Ho); by rewrite app_nil_r].
  destruct c as [ctx op].
  assert ((exists t d h p, op = RegisterEbook t d h p) \/
          (exists i, op = BuyEbook i) \/
          ((forall t d h p, op <> RegisterEbook t d h p) /\
           (forall i, op <> BuyEbook i))) as [(t & d & h & p & ->)|[(i & ->)|[Hnr Hnb]]]
    by (destruct op; naive_solver).
  - destruct (register_ebook_committed _ _ _ _ _ _ _ Ho) as (_ & _ & _ & _ & _ & ->).
    by eexists [_].
  - destruct (buy_ebook_committed _ _ _ _ Ho)
      as (e0 & s1 & _ & _ & _ & _ & Ht & _ & ->).
    by eexists [_].
  - destruct (rewrite_committed s ctx op v Hnr Hnb Ho)
      as (i & e0 & ev & _ & _ & _ & _ & ->).
    by eexists [_].
Qed.

(** X15: the event log only grows, and by exactly one event for each
    committed call: a call that fails or aborts leaves no event behind. *)
Theorem one_event_per_committed_call s cs :
  exists evs, events (run_state s cs) = events s ++ evs /\
    length evs = committed_calls (fst (run s cs)).
Proof.
  revert s. induction cs as [|c cs IH]; intros s.
  - exists []. by rewrite run_state_nil, app_nil_r.
  - rewrite run_state_cons, run_cons. cbn [fst].
    destruct (step_events s c) as (ev1 & He1 & Hl1).
    destruct (IH (snd (step s c))) as (ev2 & He2 & Hl2).
    exists (ev1 ++ ev2). rewrite He2, He1, app_assoc. split; [done|].
    rewrite length_app, Hl1, Hl2. unfold committed_calls. rewrite filter_cons.
    destruct (fst (step s c)); simpl; done.
Qed.

(** ** The mock content hash *)





Example createContentHash_examples :
  createContentHash 1 = (fun i => Z.of_nat i) <$> seq 1 32 /\
  createContentHash 250 !! 6%nat = Some 0%Z /\
  createContentHash (-1) !! 0%nat = Some 255%Z /\
  createContentHash 257 = createContentHash 1.
Proof. vm_compute. repeat split; reflexivity. Qed.

